(** * kasperisager/chromium: a supervisor for a headless Chromium process

    A shallow embedding of the Go package [chromium] (flag.go, chromium.go,
    the diagnostic scanner and the earlier address/port revision of the
    supervisor) together with the properties its specification states.

    Strings are [string] (bytes), Go integers are [Z], [net.IP] is a list
    of bytes, [interface{}] is the inductive [any].  A method on the
    pointer receiver [*chromium] takes the record and the operating-system
    state and returns both with its [outcome].  Calls that leave the
    process (temporary directories, pipes, the directory watcher, the child
    process) take their results from an explicit environment, and so does
    the order in which the cases of the [select] in [Start] become ready:
    the scanner goroutine and the watcher's dispatch loop run concurrently
    with [Start], and what they deliver reaches it through that order. *)

From Stdlib Require Import String Ascii List ZArith NArith Lia Bool.
From Stdlib Require Import Strings.Byte DecimalString DecimalZ DecimalPos.
Import ListNotations.

Local Open Scope string_scope.
Local Open Scope Z_scope.

(** ** Go library functions the package calls *)

(** Go [error] values that reach the package. *)
Inductive NumErrKind := ErrSyntax | ErrRange.

Record Error := mkError { file : string; line : Z; msg : string }.

Inductive error :=
| ErrProcessRunning
| ErrProcessNotRunning
| ErrNoPortAssigned
| ScanError (e : Error)                         (* [*Error] of the scanner *)
| NumError (func num : string) (k : NumErrKind) (* [*strconv.NumError] *)
| OSError (text : string).                      (* os, io, exec and watcher errors *)

(** What a Go call does: it returns, it panics, or it never returns. *)
Inductive outcome (A : Type) :=
| Ret (a : A)
| Panic (text : string)
| Blocked.
Arguments Ret {A} a.
Arguments Panic {A} text.
Arguments Blocked {A}.

Module strconv.

Definition is_digit (c : ascii) : bool :=
  let n := N_of_ascii c in (48 <=? n)%N && (n <=? 57)%N.

Definition digit_val (c : ascii) : Z := Z.of_N (N_of_ascii c) - 48.

(** The digit loop of [ParseUint] in base 10: [inl n] is the value read,
    [inr k] the kind of error the loop stopped on. *)
Fixpoint uint_loop (maxVal : Z) (s : string) (n : Z) : Z + NumErrKind :=
  match s with
  | EmptyString => inl n
  | String d s' =>
      if is_digit d then
        let n1 := n * 10 + digit_val d in
        if maxVal <? n1 then inr ErrRange else uint_loop maxVal s' n1
      else inr ErrSyntax
  end.

(** [strconv.ParseUint(s, 10, bitSize)]: value and error.  On a range
    error the value is the largest one of the size, on a syntax error 0. *)
Definition ParseUint (s : string) (bitSize : Z) : Z * option error :=
  match s with
  | EmptyString => (0, Some (NumError "ParseUint" s ErrSyntax))
  | _ =>
      let maxVal := 2 ^ bitSize - 1 in
      match uint_loop maxVal s 0 with
      | inl n => (n, None)
      | inr ErrRange => (maxVal, Some (NumError "ParseUint" s ErrRange))
      | inr ErrSyntax => (0, Some (NumError "ParseUint" s ErrSyntax))
      end
  end.

(** [strconv.ParseInt(s, 10, bitSize)]: an optional sign, then
    [ParseUint] on the rest, then the signed range check. *)
Definition ParseInt (s : string) (bitSize : Z) : Z * option error :=
  match s with
  | EmptyString => (0, Some (NumError "ParseInt" s ErrSyntax))
  | String c s' =>
      let neg := Ascii.eqb c "-" in
      let rest := if Ascii.eqb c "+" || neg then s' else s in
      match ParseUint rest bitSize with
      | (_, Some (NumError _ _ ErrSyntax)) =>
          (0, Some (NumError "ParseInt" s ErrSyntax))
      | (un, err) =>
          let cutoff := 2 ^ (bitSize - 1) in
          let ranged := match err with Some _ => true | None => false end in
          if negb neg && (ranged || (cutoff <=? un)) then
            (cutoff - 1, Some (NumError "ParseInt" s ErrRange))
          else if neg && (ranged || (cutoff <? un)) then
            (- cutoff, Some (NumError "ParseInt" s ErrRange))
          else (if neg then - un else un, None)
      end
  end.

(** Decimal text of an integer, as [%v] and [strconv.Itoa] print it. *)
Definition Itoa (z : Z) : string := NilZero.string_of_int (Z.to_int z).

End strconv.

Module net.

(** [net.IP] is a byte slice: 4 bytes, or 16 bytes. *)
Definition IP := list byte.

Definition v4InV6Prefix : list byte :=
  [x00; x00; x00; x00; x00; x00; x00; x00; x00; x00; xff; xff].

(** [net.IPv4(a, b, c, d)]: the 16-byte form of an IPv4 address. *)
Definition IPv4 (a b c d : byte) : IP := (v4InV6Prefix ++ [a; b; c; d])%list.

Definition is_zero (b : byte) : bool := Byte.eqb b x00.

(** [ip.To4()]: the 4-byte form, [None] for Go's nil result. *)
Definition To4 (ip : IP) : option (byte * byte * byte * byte) :=
  match ip with
  | [a; b; c; d] => Some (a, b, c, d)
  | [z0; z1; z2; z3; z4; z5; z6; z7; z8; z9; f0; f1; a; b; c; d] =>
      if forallb is_zero [z0; z1; z2; z3; z4; z5; z6; z7; z8; z9]
         && Byte.eqb f0 xff && Byte.eqb f1 xff
      then Some (a, b, c, d) else None
  | _ => None
  end.

Definition uitoa (b : byte) : string := strconv.Itoa (Z.of_N (Byte.to_N b)).

Definition hexDigit (n : N) : string :=
  String (ascii_of_N (if (n <? 10)%N then 48 + n else 87 + n)) "".

(** [appendHex]: lower-case hexadecimal without leading zeros. *)
Definition appendHex (g : N) : string :=
  if (g =? 0)%N then "0"
  else
    let nib j := N.land (N.shiftr g (4 * j)) 15 in
    let from j := (0 <? N.shiftr g (4 * j))%N in
    (if from 3%N then hexDigit (nib 3%N) else "") ++
    (if from 2%N then hexDigit (nib 2%N) else "") ++
    (if from 1%N then hexDigit (nib 1%N) else "") ++
    hexDigit (nib 0%N).

(** [hexString]: two hexadecimal digits a byte. *)
Fixpoint hexString (bs : list byte) : string :=
  match bs with
  | [] => ""
  | b :: t =>
      let n := Byte.to_N b in
      hexDigit (N.shiftr n 4) ++ hexDigit (N.land n 15) ++ hexString t
  end.

(** The eight 16-bit groups of a 16-byte address. *)
Fixpoint groups (bs : list byte) : list N :=
  match bs with
  | hi :: lo :: t => N.lor (N.shiftl (Byte.to_N hi) 8) (Byte.to_N lo) :: groups t
  | _ => []
  end.

Fixpoint zero_run (gs : list N) : nat :=
  match gs with
  | 0%N :: t => S (zero_run t)
  | _ => O
  end.

(** The first longest run of zero groups: its start and its length. *)
Fixpoint longest_run (gs : list N) (i e0 len : nat) : nat * nat :=
  match gs with
  | [] => (e0, len)
  | _ :: t =>
      let r := zero_run gs in
      if (len <? r)%nat then longest_run t (S i) i r
      else longest_run t (S i) e0 len
  end.

(** The groups separated by colons, the run from [e0] to [e1] elided. *)
Fixpoint print_groups (gs : list N) (i e0 e1 : nat) (sep : bool) : string :=
  match gs with
  | [] => ""
  | g :: t =>
      if ((e0 <=? i) && (i <? e1))%nat then
        (if (i =? e0)%nat then "::" else "") ++ print_groups t (S i) e0 e1 false
      else
        (if sep then ":" else "") ++ appendHex g ++ print_groups t (S i) e0 e1 true
  end.

(** [ip.String()]. *)
Definition IP_String (ip : IP) : string :=
  match ip with
  | [] => "<nil>"
  | _ =>
      match To4 ip with
      | Some (a, b, c, d) =>
          uitoa a ++ "." ++ uitoa b ++ "." ++ uitoa c ++ "." ++ uitoa d
      | None =>
          if (length ip =? 16)%nat then
            let gs := groups ip in
            let '(e0, len) := longest_run gs 0 0 0 in
            (* a single zero group is never shortened *)
            if (len <=? 1)%nat then print_groups gs 0 0 0 false
            else print_groups gs 0 e0 (e0 + len) false
          else "?" ++ hexString ip
      end
  end.

End net.

(** ** flag.go *)

(** A Go [interface{}] value, by dynamic type.  [VOther] stands for a value
    of any further type: its type name and the text [%v] prints for it. *)
Inductive any :=
| VBool (b : bool)
| VString (s : string)
| VInt (n : Z)        (* int *)
| VUint16 (n : Z)     (* uint16 *)
| VIP (ip : net.IP)   (* net.IP *)
| VNil                (* the nil interface value *)
| VOther (gotype text : string).

(** [fmt]'s verb [%v]. *)
Definition fmt_v (v : any) : string :=
  match v with
  | VBool b => if b then "true" else "false"
  | VString s => s
  | VInt n => strconv.Itoa n
  | VUint16 n => strconv.Itoa n
  | VIP ip => net.IP_String ip
  | VNil => "<nil>"
  | VOther _ text => text
  end.

Record Flag := mkFlag { Key : string; Value : any }.

(** [func (flag Flag) String() string] *)
Definition Flag_String (flag : Flag) : string :=
  match Value flag with
  | VBool value => if value then "--" ++ Key flag else ""
  | value => "--" ++ Key flag ++ "=" ++ fmt_v value
  end.

Definition Address (address : net.IP) : Flag :=
  mkFlag "remote-debugging-address" (VIP address).

Definition Port (port : Z) : Flag :=
  mkFlag "remote-debugging-port" (VUint16 port).

Definition Data (directory : string) : Flag :=
  mkFlag "user-data-dir" (VString directory).

Definition Size (width height : Z) : Flag :=
  mkFlag "window-size" (VString (fmt_v (VInt width) ++ "," ++ fmt_v (VInt height))).

(** ** Go's [regexp], as far as the scanner's pattern needs it

    A backtracking matcher with the leftmost-first choice of Go's
    [regexp]: alternatives are tried in priority order, repetition is
    greedy, and the first match found is the one reported. *)
Module regexp.

Inductive re :=
| Eps
| Lit (c : ascii)          (* an escaped or plain literal byte *)
| Dot                      (* [.]: any character but a newline *)
| Digit                    (* [\d] *)
| Space                    (* [\s] *)
| Star (r : re)            (* [r*], greedy *)
| Plus (r : re)            (* [r+], greedy *)
| Cat (r1 r2 : re)
| Group (n : nat) (r : re). (* the n-th capturing group *)

Definition is_space (c : ascii) : bool :=
  let n := N_of_ascii c in
  ((n =? 9) || (n =? 10) || (n =? 12) || (n =? 13) || (n =? 32))%N.

Definition is_newline (c : ascii) : bool := (N_of_ascii c =? 10)%N.

(** Captured texts, the most recent capture of a group first. *)
Definition caps := list (nat * string).
Definition cont := string -> caps -> option caps.

Definition one (p : ascii -> bool) (k : cont) : cont :=
  fun s c =>
    match s with
    | String x s' => if p x then k s' c else None
    | EmptyString => None
    end.

(** Greedy repetition of [step]: one more round that consumes input is
    tried before the continuation. *)
Fixpoint loop (fuel : nat) (step : cont -> cont) (k : cont) : cont :=
  fun s c =>
    match fuel with
    | O => k s c
    | S fuel' =>
        let again : cont := fun s' c' =>
          if (String.length s' <? String.length s)%nat
          then loop fuel' step k s' c' else None in
        match step again s c with
        | Some r => Some r
        | None => k s c
        end
    end.

Fixpoint rmatch (r : re) (k : cont) {struct r} : cont :=
  fun s c =>
    match r with
    | Eps => k s c
    | Lit a => one (Ascii.eqb a) k s c
    | Dot => one (fun x => negb (is_newline x)) k s c
    | Digit => one strconv.is_digit k s c
    | Space => one is_space k s c
    | Star r' => loop (S (String.length s)) (rmatch r') k s c
    | Plus r' =>
        rmatch r' (fun s' c' => loop (S (String.length s')) (rmatch r') k s' c') s c
    | Cat r1 r2 => rmatch r1 (rmatch r2 k) s c
    | Group n r' =>
        rmatch r'
          (fun s' c' =>
             k s' ((n, substring 0 (String.length s - String.length s') s) :: c'))
          s c
    end.

(** The leftmost match: every start offset in turn. *)
Fixpoint search (r : re) (s : string) : option caps :=
  match rmatch (Group 0 r) (fun _ c => Some c) s [] with
  | Some c => Some c
  | None =>
      match s with
      | EmptyString => None
      | String _ s' => search r s'
      end
  end.

Fixpoint lookup (n : nat) (c : caps) : string :=
  match c with
  | [] => ""
  | (m, t) :: c' => if (m =? n)%nat then t else lookup n c'
  end.

(** [re.FindStringSubmatch(s)] for a pattern with [ngroups] groups: the
    matched text and the text of each group, or the nil slice. *)
Definition FindStringSubmatch (r : re) (ngroups : nat) (s : string) : list string :=
  match search r s with
  | Some c => map (fun n => lookup n c) (seq 0 (S ngroups))
  | None => []
  end.

Definition seq_of (rs : list re) : re := fold_right Cat Eps rs.

End regexp.

(** ** The diagnostic scanner *)

Import regexp.

(** [regexp.MustCompile(`\[.*:(.+)\((\d+)\)\]\s+(.+)`)] *)
Definition errFormat : re :=
  seq_of [ Lit "["; Star Dot; Lit ":"; Group 1 (Plus Dot);
           Lit "("; Group 2 (Plus Digit); Lit ")"; Lit "]";
           Plus Space; Group 3 (Plus Dot) ].

Definition Error_Error (e : Error) : string := "chromium: " ++ msg e.
Definition Error_File (e : Error) : string := file e.
Definition Error_Line (e : Error) : Z := line e.
Definition Error_Message (e : Error) : string := msg e.

(** What a [bufio.Scanner] makes of an [io.Reader]: the lines in order, and
    the error the scanner stopped on ([None] at the end of the stream). *)
Record Reader := mkReader { lines : list string; read_err : option error }.

Definition index_panic : string := "runtime error: index out of range".

(** One round of the [for scanner.Scan()] loop on the line [text]: the
    error sent on [out], or the panic of an index expression. *)
Definition scan_line (text : string) : outcome error :=
  let parts := FindStringSubmatch errFormat 3 text in
  match nth_error parts 2 with
  | None => Panic index_panic
  | Some p2 =>
      let '(line, _) := strconv.ParseInt p2 32 in
      match nth_error parts 1, nth_error parts 3 with
      | Some p1, Some p3 => Ret (ScanError (mkError p1 line p3))
      | _, _ => Panic index_panic
      end
  end.

(** The loop over the lines; [out] collects what was sent on the channel,
    in order. *)
Fixpoint scan_lines (ls : list string) (out : list error) : list error * outcome unit :=
  match ls with
  | [] => (out, Ret tt)
  | text :: ls' =>
      match scan_line text with
      | Ret e => scan_lines ls' (out ++ [e])%list
      | Panic t => (out, Panic t)
      | Blocked => (out, Blocked)
      end
  end.

(** [func Scan(in io.Reader, out chan<- error)]: everything sent on [out]
    and how the call ended. *)
Definition Scan (in_ : Reader) : list error * outcome unit :=
  match scan_lines (lines in_) [] with
  | (out, Ret tt) =>
      match read_err in_ with
      | Some err => ((out ++ [err])%list, Ret tt)
      | None => (out, Ret tt)
      end
  | stopped => stopped
  end.

(** ** The operating system the supervisor acts on *)

(** [*exec.Cmd]: [Process] is [None] until the command was started. *)
Record Cmd := mkCmd { Path : string; Args : list string; Process : option Z }.

(** [exec.Command(name, arg...)] *)
Definition Command (name : string) (arg : list string) : Cmd :=
  mkCmd name (name :: arg) None.

(** The directories that exist and the child processes that run. *)
Record OS := mkOS { dirs : list string; running : list Z }.

Definition mkdir (d : string) (os : OS) : OS := mkOS (d :: dirs os) (running os).

(** [os.RemoveAll(d)]; its error is discarded by the package. *)
Definition RemoveAll (d : string) (os : OS) : OS :=
  mkOS (filter (fun x => negb (String.eqb x d)) (dirs os)) (running os).

Definition spawn (pid : Z) (os : OS) : OS := mkOS (dirs os) (pid :: running os).

Definition reap (pid : Z) (os : OS) : OS :=
  mkOS (dirs os) (filter (fun x => negb (x =? pid)) (running os)).

(** One case of the [select] in [Start] becoming ready. *)
Inductive Select :=
| Event (name path : string) (ReadFile : string * option error)
    (* [<-poller.Event], with what [ioutil.ReadFile(event.Path)] yields then *)
| WatchError (err : error)   (* [<-poller.Error] *)
| Errs (err : error).        (* [<-chromium.errs] *)

(** The results of the calls [Start] makes, and the order in which the
    cases of its [select] become ready. *)
Record StartEnv := mkStartEnv {
  TempDir : string * option error;     (* [ioutil.TempDir("", "chromium-")] *)
  StderrPipe : option error;           (* [cmd.StderrPipe()] *)
  watcher_Add : option error;          (* [poller.Add(data)] *)
  cmd_Start : Z * option error;        (* [cmd.Start()]: the pid, or the error *)
  race : list Select
}.

(** ** chromium.go *)

(** The struct [chromium]; the channel [errs] is read through [Errs]. *)
Record chromium := mkChromium {
  path : string;
  data : string;
  flags : list Flag;
  cmd : option Cmd
}.

Definition New (path : string) (flags : list Flag) : chromium :=
  mkChromium path "" flags None.

Definition set_flags (fs : list Flag) (c : chromium) : chromium :=
  mkChromium (path c) (data c) fs (cmd c).
Definition set_data (d : string) (c : chromium) : chromium :=
  mkChromium (path c) d (flags c) (cmd c).
Definition set_cmd (k : option Cmd) (c : chromium) : chromium :=
  mkChromium (path c) (data c) (flags c) k.

Fixpoint find_flag (key : string) (fs : list Flag) : option any :=
  match fs with
  | [] => None
  | flag :: fs' =>
      if String.eqb (Key flag) key then Some (Value flag) else find_flag key fs'
  end.

(** [func (chromium *chromium) Flag(key string) (interface{}, bool)] *)
Definition chromium_Flag (c : chromium) (key : string) : option any :=
  find_flag key (flags c).

Definition mandatory : list Flag :=
  [ mkFlag "headless" (VBool true);
    mkFlag "disable-gpu" (VBool true);
    mkFlag "no-sandbox" (VBool true) ].

Definition marker : string := "DevToolsActivePort".

(** The [for { select { ... } }] loop of [Start]: the port and the error
    returned, or [Blocked] when no further case becomes ready. *)
Fixpoint race_loop (evs : list Select) : outcome (Z * option error) :=
  match evs with
  | [] => Blocked
  | Event name _ (file, err) :: evs' =>
      if negb (String.eqb name marker) then race_loop evs'
      else
        match err with
        | Some e => Ret (0, Some e)
        | None =>
            match strconv.ParseUint file 16 with
            | (_, Some e) => Ret (0, Some e)
            | (port, None) => Ret (port mod 2 ^ 16, None)
            end
        end
  | WatchError err :: _ => Ret (0, Some err)
  | Errs err :: _ => Ret (0, Some err)
  end.

Definition result (A : Type) : Type := outcome A * chromium * OS.

(** The part of [Start] from [exec.Command] on.  [go Scan(stderr, errs)]
    and [go poller.Start(...)] only feed the channels of the [select]; the
    deferred [poller.Close()] touches nothing of the record. *)
Definition launch (env : StartEnv) (c : chromium) (os : OS) : result (Z * option error) :=
  let k := Command (path c) (map Flag_String (flags c)) in
  let c := set_cmd (Some k) c in
  match StderrPipe env with
  | Some err => (Ret (0, Some err), c, os)
  | None =>
      match watcher_Add env with
      | Some err => (Ret (0, Some err), c, os)
      | None =>
          match cmd_Start env with
          | (_, Some err) => (Ret (0, Some err), c, os)
          | (pid, None) =>
              let c := set_cmd (Some (mkCmd (Path k) (Args k) (Some pid))) c in
              (race_loop (race env), c, spawn pid os)
          end
      end
  end.

(** The defaults for the debugging address and port. *)
Definition defaults (c : chromium) : chromium :=
  let c :=
    match chromium_Flag c "remote-debugging-address" with
    | Some _ => c
    | None =>
        set_flags (flags c ++ [mkFlag "remote-debugging-address"
                                      (VIP (net.IPv4 x7f x00 x00 x01))])%list c
    end in
  match chromium_Flag c "remote-debugging-port" with
  | Some _ => c
  | None => set_flags (flags c ++ [mkFlag "remote-debugging-port" (VInt 0)])%list c
  end.

(** [func (chromium *chromium) Start() (uint16, error)] *)
Definition chromium_Start (env : StartEnv) (c : chromium) (os : OS)
  : result (Z * option error) :=
  match cmd c with
  | Some _ => (Ret (0, Some ErrProcessRunning), c, os)
  | None =>
      let c := set_flags (flags c ++ mandatory)%list c in
      match chromium_Flag c "user-data-dir" with
      | Some (VString d) => launch env (defaults (set_data d c)) os
      | Some _ => (Panic "interface conversion: interface {} is not string", c, os)
      | None =>
          match TempDir env with
          | (_, Some err) => (Ret (0, Some err), c, os)
          | (d, None) =>
              let c := set_flags (flags c ++ [mkFlag "user-data-dir" (VString d)])%list c in
              launch env (defaults (set_data d c)) (mkdir d os)
          end
      end
  end.

(** [func (chromium *chromium) Cleanup()] *)
Definition chromium_Cleanup (c : chromium) (os : OS) : chromium * OS :=
  let os := if String.eqb (data c) "" then os else RemoveAll (data c) os in
  (set_data "" (set_cmd None c), os).

Definition nil_panic : string :=
  "runtime error: invalid memory address or nil pointer dereference".

(** [func (chromium *chromium) Stop() error]; [kill] is what
    [Process.Kill()] reports.  The deferred [Cleanup] runs on every way out
    of the function once the [defer] statement was reached. *)
Definition chromium_Stop (kill : option error) (c : chromium) (os : OS)
  : result (option error) :=
  match cmd c with
  | None => (Ret (Some ErrProcessNotRunning), c, os)
  | Some k =>
      let '(r, os) :=
        match Process k with
        | None => (Panic nil_panic, os)
        | Some pid =>
            match kill with
            | Some err => (Ret (Some err), os)
            | None => (Ret None, reap pid os)
            end
        end in
      let '(c, os) := chromium_Cleanup c os in
      (r, c, os)
  end.

(** [func (chromium *chromium) Wait() error]; [exit] is what [cmd.Wait()]
    reports when the process has finished, [None] while it never does. *)
Definition chromium_Wait (exit : option (option error)) (c : chromium) (os : OS)
  : result (option error) :=
  match cmd c with
  | None => (Ret (Some ErrProcessNotRunning), c, os)
  | Some k =>
      match Process k with
      | None =>
          let '(c, os) := chromium_Cleanup c os in
          (Ret (Some (OSError "exec: not started")), c, os)
      | Some pid =>
          match exit with
          | None => (Blocked, c, os)
          | Some err =>
              let '(c, os) := chromium_Cleanup c (reap pid os) in
              (Ret err, c, os)
          end
      end
  end.

(** ** The earlier revision of the supervisor (address and port in the
    constructor, flags as strings) *)
Module Legacy.

Record chromium := mkChromium {
  path : string;
  addr : net.IP;
  port : Z;                (* uint16 *)
  data : string;
  cmd : option Cmd;
  flags : list string
}.

Definition New (path : string) (addr : net.IP) (port : Z) (flags : list string)
  : chromium :=
  mkChromium path addr port "" None flags.

Definition set_port (p : Z) (c : chromium) : chromium :=
  mkChromium (path c) (addr c) p (data c) (cmd c) (flags c).
Definition set_data (d : string) (c : chromium) : chromium :=
  mkChromium (path c) (addr c) (port c) d (cmd c) (flags c).
Definition set_cmd (k : option Cmd) (c : chromium) : chromium :=
  mkChromium (path c) (addr c) (port c) (data c) k (flags c).

Definition result (A : Type) : Type := outcome A * chromium * OS.

Definition chromium_Path (c : chromium) : string := path c.
Definition chromium_Addr (c : chromium) : net.IP := addr c.

Definition chromium_Port (c : chromium) : Z * option error :=
  if port c =? 0 then (0, Some ErrNoPortAssigned) else (port c, None).

Definition chromium_Data (c : chromium) : string * option error :=
  match cmd c with
  | None => ("", Some ErrProcessNotRunning)
  | Some _ => (data c, None)
  end.

(** The [for !active { select { ... } }] loop of [Start]. *)
Fixpoint race_loop (evs : list Select) (c : chromium)
  : outcome (option error) * chromium :=
  match evs with
  | [] => (Blocked, c)
  | Event name _ (file, err) :: evs' =>
      if negb (String.eqb name marker) then race_loop evs' c
      else
        match err with
        | Some e => (Ret (Some e), c)
        | None =>
            match strconv.ParseUint file 16 with
            | (_, Some e) => (Ret (Some e), c)
            | (p, None) => (Ret None, set_port (p mod 2 ^ 16) c)
            end
        end
  | WatchError err :: _ => (Ret (Some err), c)
  | Errs err :: _ => (Ret (Some err), c)
  end.

(** [func (chromium *chromium) Start() error] *)
Definition chromium_Start (env : StartEnv) (c : chromium) (os : OS)
  : result (option error) :=
  match cmd c with
  | Some _ => (Ret (Some ErrProcessRunning), c, os)
  | None =>
      match TempDir env with
      | (_, Some err) => (Ret (Some err), c, os)
      | (d, None) =>
          let os := mkdir d os in
          let c := set_data d c in
          let args :=
            app (flags c)
              [ "--headless"; "--disable-gpu"; "--no-sandbox";
                "--user-data-dir=" ++ fmt_v (VString (data c));
                "--remote-debugging-address=" ++ fmt_v (VIP (addr c));
                "--remote-debugging-port=" ++ fmt_v (VUint16 (port c)) ] in
          let k := Command (path c) args in
          let c := set_cmd (Some k) c in
          match StderrPipe env with
          | Some err => (Ret (Some err), c, os)
          | None =>
              match watcher_Add env with
              | Some err => (Ret (Some err), c, os)
              | None =>
                  match cmd_Start env with
                  | (_, Some err) => (Ret (Some err), c, os)
                  | (pid, None) =>
                      let c := set_cmd (Some (mkCmd (Path k) (Args k) (Some pid))) c in
                      let '(r, c) := race_loop (race env) c in
                      (r, c, spawn pid os)
                  end
              end
          end
      end
  end.

(** [func (chromium *chromium) Cleanup()] *)
Definition chromium_Cleanup (c : chromium) (os : OS) : chromium * OS :=
  let os := if String.eqb (data c) "" then os else RemoveAll (data c) os in
  (set_data "" (set_cmd None c), os).

(** [func (chromium *chromium) Stop() error] *)
Definition chromium_Stop (kill : option error) (c : chromium) (os : OS)
  : result (option error) :=
  match cmd c with
  | None => (Ret (Some ErrProcessNotRunning), c, os)
  | Some k =>
      let '(r, os) :=
        match Process k with
        | None => (Panic nil_panic, os)
        | Some pid =>
            match kill with
            | Some err => (Ret (Some err), os)
            | None => (Ret None, reap pid os)
            end
        end in
      let '(c, os) := chromium_Cleanup c os in
      (r, c, os)
  end.

(** [func (chromium *chromium) Wait() error] *)
Definition chromium_Wait (exit : option (option error)) (c : chromium) (os : OS)
  : result (option error) :=
  match cmd c with
  | None => (Ret (Some ErrProcessNotRunning), c, os)
  | Some k =>
      match Process k with
      | None =>
          let '(c, os) := chromium_Cleanup c os in
          (Ret (Some (OSError "exec: not started")), c, os)
      | Some pid =>
          match exit with
          | None => (Blocked, c, os)
          | Some err =>
              let '(c, os) := chromium_Cleanup c (reap pid os) in
              (Ret err, c, os)
          end
      end
  end.


(** [func (chromium *chromium) Scan(pipe io.ReadCloser)]: what was sent
    on [chromium.errs], how the call ended, and whether the deferred
    [pipe.Close()] ran. *)
Definition chromium_Scan (pipe : Reader) : list error * outcome unit * bool :=
  let '(out, r) := scan_lines (lines pipe) [] in
  match r, read_err pipe with
  | Ret tt, Some err => ((out ++ [err])%list, Ret tt, true)
  | _, _ => (out, r, true)
  end.

End Legacy.

(** ** Notions of the specification *)

Inductive render_result :=
| Rendered (s : string)
| UnsupportedValueType.

(** What a call of [Flag.String] hands back: the method has the single
    result type [string]. *)
Definition render (flag : Flag) : render_result := Rendered (Flag_String flag).

(** The value types the specification enumerates: boolean, string,
    integer, ip-address (a structured size is built as a string). *)
Definition enumerated (v : any) : bool :=
  match v with
  | VBool _ | VString _ | VInt _ | VUint16 _ | VIP _ => true
  | VNil | VOther _ _ => false
  end.

Definition is_bool (v : any) : bool :=
  match v with VBool _ => true | _ => false end.

Definition loopback : net.IP := net.IPv4 x7f x00 x00 x01.

(** The defaults [Start] adds to the flags [fs] it was called with. *)
Definition injected (env : StartEnv) (fs : list Flag) : list Flag :=
  ((match find_flag "user-data-dir" fs with
    | Some _ => []
    | None => [mkFlag "user-data-dir" (VString (fst (TempDir env)))]
    end) ++
   (match find_flag "remote-debugging-address" fs with
    | Some _ => []
    | None => [mkFlag "remote-debugging-address" (VIP loopback)]
    end) ++
   (match find_flag "remote-debugging-port" fs with
    | Some _ => []
    | None => [mkFlag "remote-debugging-port" (VInt 0)]
    end))%list.

(** The arguments of the command a call left on the record. *)
Definition final_args {A : Type} (r : result A) : list string :=
  match cmd (snd (fst r)) with
  | Some k => tl (Args k)
  | None => []
  end.

(** The mandatory flags come after all other entries. *)
Definition mandatory_last (args : list string) : Prop :=
  exists others, args = (others ++ map Flag_String mandatory)%list.

(** Every step of [Start] before the race succeeds. *)
Definition setup_ok (env : StartEnv) (c : chromium) : Prop :=
  cmd c = None
  /\ match find_flag "user-data-dir" (flags c) with
     | Some (VString _) => True
     | Some _ => False
     | None => snd (TempDir env) = None
     end
  /\ StderrPipe env = None /\ watcher_Add env = None /\ snd (cmd_Start env) = None.

Definition legacy_setup_ok (env : StartEnv) (c : Legacy.chromium) : Prop :=
  Legacy.cmd c = None /\ snd (TempDir env) = None
  /\ StderrPipe env = None /\ watcher_Add env = None /\ snd (cmd_Start env) = None.

(** An event the loop passes over: a file-system event for another name. *)
Definition ignored (ev : Select) : Prop :=
  match ev with
  | Event name _ _ => String.eqb name marker = false
  | _ => False
  end.

(** The first line of a file's content, the part the specification has
    [Start] parse. *)
Fixpoint first_line (s : string) : string :=
  match s with
  | EmptyString => ""
  | String c s' => if is_newline c then "" else String c (first_line s')
  end.

(** ** Runs used as examples *)

Definition os0 : OS := mkOS [] [].

Definition nl : string := String "010"%char "".

Definition error_line : string := "[ERROR:file.cc(42)] boom".

Definition marker_event (dir file : string) : Select :=
  Event marker (dir ++ "/" ++ marker) (file, None).

Definition other_event (dir : string) : Select :=
  Event "Default" (dir ++ "/Default") ("", None).

(** Every call succeeds, the temporary directory is [dir], the child gets
    the pid [pid], and the marker file holds [file] when it is read. *)
Definition env_ok (dir : string) (pid : Z) (file : string) : StartEnv :=
  mkStartEnv (dir, None) None None (pid, None)
    [other_event dir; marker_event dir file].

Definition first_env : StartEnv := env_ok "/tmp/chromium-1" 100 "9222".
Definition second_env : StartEnv := env_ok "/tmp/chromium-2" 101 "9333".

(** A marker file of two lines: the port, then the debugger path. *)
Definition two_line_file : string := "9222" ++ nl ++ "/devtools/browser/0a1b2c".
Definition two_line_env : StartEnv := env_ok "/tmp/chromium-1" 100 two_line_file.

Definition fresh : chromium := New "chrome" [].
Definition sized : chromium := New "chrome" [Size 800 600].
Definition ported : chromium := New "chrome" [Port 9222; Size 800 600].
Definition legacy_fresh : Legacy.chromium := Legacy.New "chrome" loopback 0 [].

(** The records after a first successful [Start]. *)
Definition running1 : chromium := snd (fst (chromium_Start first_env fresh os0)).
Definition legacy_running : Legacy.chromium :=
  snd (fst (Legacy.chromium_Start first_env legacy_fresh os0)).
Definition os_running : OS := mkOS ["/tmp/chromium-1"] [100].

Definition kill_error : option error := Some (OSError "os: process already finished").

Definition pipe_fails : StartEnv :=
  mkStartEnv ("/tmp/chromium-1", None) (Some (OSError "exec: Stderr already set"))
    None (100, None) [].

Definition watch_fails : StartEnv :=
  mkStartEnv ("/tmp/chromium-1", None) None
    (Some (OSError "watcher: permission denied")) (100, None) [].

Definition spawn_fails : StartEnv :=
  mkStartEnv ("/tmp/chromium-1", None) None None
    (0, Some (OSError "exec: chrome: executable file not found")) [].

Definition race_fails : StartEnv :=
  mkStartEnv ("/tmp/chromium-1", None) None None (100, None)
    [Errs (ScanError (mkError "gpu_init.cc" 7 "boom"))].

(** The command [Start] records for [fresh] in these runs. *)
Definition chrome_cmd (pr : option Z) : Cmd :=
  mkCmd "chrome"
    [ "chrome"; "--headless"; "--disable-gpu"; "--no-sandbox";
      "--user-data-dir=/tmp/chromium-1"; "--remote-debugging-address=127.0.0.1";
      "--remote-debugging-port=0" ] pr.

(** [Start] on [fresh] under [env] returns the error [e] and leaves the
    command [chrome_cmd pr] on the record, the data directory in place and
    the operating system as [os']; the next [Start] is refused. *)
Definition start_failed (env : StartEnv) (e : error) (pr : option Z) (os' : OS) : Prop :=
  exists c', chromium_Start env fresh os0 = (Ret (0, Some e), c', os')
             /\ cmd c' = Some (chrome_cmd pr) /\ data c' = "/tmp/chromium-1"
             /\ fst (fst (chromium_Start second_env c' os'))
                = Ret (0, Some ErrProcessRunning).

(** ** Notions used by the further properties *)

Fixpoint string_forall (p : ascii -> bool) (s : string) : bool :=
  match s with
  | EmptyString => true
  | String x s' => p x && string_forall p s'
  end.

Definition not_newline (x : ascii) : bool := negb (is_newline x).

Definition err_list (e : option error) : list error :=
  match e with
  | Some err => [err]
  | None => []
  end.

(** The number a text of decimal digits denotes, from the accumulator [n]. *)
Fixpoint dec_acc (s : string) (n : Z) : Z :=
  match s with
  | EmptyString => n
  | String d s' => dec_acc s' (n * 10 + strconv.digit_val d)
  end.

Definition dec_value (s : string) : Z := dec_acc s 0.

Definition MaxInt32 : Z := 2147483647.

(** The character [a] does not occur in [s]. *)
Definition lacks (a : ascii) (s : string) : bool :=
  string_forall (fun x => negb (Ascii.eqb x a)) s.

(** A case of the [select] that ends [Start] with the error [e]: a watcher
    error, an error on [errs], or a marker event whose file cannot be read. *)
Definition aborts (ev : Select) (e : error) : Prop :=
  match ev with
  | WatchError x => x = e
  | Errs x => x = e
  | Event name _ (_, Some x) => name = marker /\ x = e
  | Event _ _ (_, None) => False
  end.

Definition profile_env : StartEnv := env_ok "/tmp/unused" 100 "9222".
Definition with_profile : chromium := New "chrome" [Data "/home/u/profile"].
Definition bad_profile : chromium := New "chrome" [mkFlag "user-data-dir" (VInt 7)].
Definition quiet : chromium := New "chrome" [mkFlag "mute-audio" (VBool false)].

Definition tempdir_fails : StartEnv :=
  mkStartEnv ("", Some (OSError "mkdir /tmp/chromium-1: no space left on device"))
    None None (100, None) [].

Definition silent_env : StartEnv :=
  mkStartEnv ("/tmp/chromium-1", None) None None (100, None)
    [other_event "/tmp/chromium-1"].

Definition error_first_env : StartEnv :=
  mkStartEnv ("/tmp/chromium-1", None) None None (100, None)
    [other_event "/tmp/chromium-1"; Errs (ScanError (mkError "gpu_init.cc" 7 "boom"));
     marker_event "/tmp/chromium-1" "9222"].

Definition profile_os : OS := mkOS ["/home/u/profile"; "/home/u"] [].

(** The six arguments the earlier revision appends to the caller's flags. *)
Definition legacy_tail (dir : string) (addr : net.IP) (port : Z) : list string :=
  [ "--headless"; "--disable-gpu"; "--no-sandbox";
    "--user-data-dir=" ++ dir;
    "--remote-debugging-address=" ++ net.IP_String addr;
    "--remote-debugging-port=" ++ strconv.Itoa port ].

Definition legacy_error_env : StartEnv :=
  mkStartEnv ("/tmp/chromium-1", None) None None (100, None)
    [WatchError (OSError "watcher: closed")].

(** ** The scanner on a channel of limited room

    [scan_lines] and [Scan] describe the run in which every send on [out]
    is received.  The channel of the package has one slot and is read only
    by the [select] in [Start], so a send can also block for ever.  Here
    [room] is the number of sends that can complete in all: the free slot
    of the channel plus the values its reader receives. *)

(** [out <- e] after the sends in [out]: [None] when it blocks. *)
Definition send (room : nat) (e : error) (out : list error) : option (list error) :=
  if (length out <? room)%nat then Some (out ++ [e])%list else None.

Fixpoint scan_lines_room (room : nat) (ls : list string) (out : list error)
  : list error * outcome unit :=
  match ls with
  | [] => (out, Ret tt)
  | text :: ls' =>
      match scan_line text with
      | Ret e =>
          match send room e out with
          | Some out' => scan_lines_room room ls' out'
          | None => (out, Blocked)
          end
      | Panic t => (out, Panic t)
      | Blocked => (out, Blocked)
      end
  end.

(** [Scan] with room for [room] sends. *)
Definition Scan_room (room : nat) (in_ : Reader) : list error * outcome unit :=
  match scan_lines_room room (lines in_) [] with
  | (out, Ret tt) =>
      match read_err in_ with
      | Some err =>
          match send room err out with
          | Some out' => (out', Ret tt)
          | None => (out, Blocked)
          end
      | None => (out, Ret tt)
      end
  | stopped => stopped
  end.

(** The method [Scan] of the earlier revision with room for [room] sends:
    the same loop on [chromium.errs]; the deferred [pipe.Close()] runs when
    the method returns or panics, not while a send blocks. *)
Definition Legacy_Scan_room (room : nat) (pipe : Reader)
  : list error * outcome unit * bool :=
  let '(out, r) := Scan_room room pipe in
  (out, r, match r with Blocked => false | _ => true end).

(** The dotted form of four bytes, and the texts that are one. *)
Definition dotted (a b c d : byte) : string :=
  net.uitoa a ++ "." ++ net.uitoa b ++ "." ++ net.uitoa c ++ "." ++ net.uitoa d.

Definition is_dotted (s : string) : Prop := exists a b c d, s = dotted a b c d.

(** The IPv6 loopback address [::1]. *)
Definition ip6_loopback : net.IP :=
  [x00; x00; x00; x00; x00; x00; x00; x00; x00; x00; x00; x00; x00; x00; x00; x01].

(** * Properties *)

(** ** Library facts *)

Lemma Itoa_reads_back (z : Z) :
  option_map Z.of_int (NilZero.int_of_string (strconv.Itoa z)) = Some z.
Proof.
  unfold strconv.Itoa.
  rewrite NilZero.isi.
  - simpl. now rewrite DecimalZ.of_to.
  - destruct z as [|p|p]; simpl; try discriminate.
    intros H. apply (Unsigned.to_uint_nonnil p). congruence.
  - destruct z as [|p|p]; simpl; try discriminate.
    intros H. apply (Unsigned.to_uint_nonnil p). congruence.
Qed.

Lemma To4_IPv4 (a b c d : byte) : net.To4 (net.IPv4 a b c d) = Some (a, b, c, d).
Proof. reflexivity. Qed.

Lemma uint_loop_digits (maxVal : Z) (s : string) :
  forall n v, strconv.uint_loop maxVal s n = inl v ->
    0 <= n <= maxVal ->
    (forall c, In c (list_ascii_of_string s) -> strconv.is_digit c = true)
    /\ n <= v <= maxVal.
Proof.
  induction s as [|d s IH]; simpl; intros n v H Hn.
  - injection H as <-. split; [tauto | lia].
  - destruct (strconv.is_digit d) eqn:Hd; [|discriminate].
    destruct (maxVal <? n * 10 + strconv.digit_val d) eqn:Hlt; [discriminate|].
    apply Z.ltb_ge in Hlt.
    assert (0 <= strconv.digit_val d).
    { unfold strconv.is_digit in Hd. unfold strconv.digit_val.
      apply andb_prop in Hd as [Hd _]. apply N.leb_le in Hd. lia. }
    destruct (IH _ _ H ltac:(lia)) as [Hall Hv].
    split.
    + intros c [<-|Hc]; auto.
    + lia.
Qed.

(** A text [ParseUint] accepts for 16 bits is made of decimal digits only
    and denotes a number below 65536. *)
Lemma ParseUint_accepts (s : string) (port : Z) :
  strconv.ParseUint s 16 = (port, None) ->
  s <> "" /\ (forall c, In c (list_ascii_of_string s) -> strconv.is_digit c = true)
  /\ 0 <= port < 65536.
Proof.
  unfold strconv.ParseUint. destruct s as [|a s]; [discriminate|].
  destruct (strconv.uint_loop _ _ _) as [n|[|]] eqn:H; try discriminate.
  intros E; injection E as <-.
  apply uint_loop_digits in H; [|simpl; lia].
  destruct H as [Hd Hn]. split; [discriminate|]. split; [exact Hd|].
  change (2 ^ 16 - 1) with 65535 in Hn. lia.
Qed.

Lemma digit_val_range (d : ascii) :
  strconv.is_digit d = true -> 0 <= strconv.digit_val d <= 9.
Proof.
  unfold strconv.is_digit, strconv.digit_val. intros H.
  apply andb_prop in H as [H1 H2]. apply N.leb_le in H1, H2. lia.
Qed.

Lemma dec_acc_ge (s : string) :
  forall n, string_forall strconv.is_digit s = true -> 0 <= n -> n <= dec_acc s n.
Proof.
  induction s as [|d s IH]; simpl; intros n H Hn; [lia|].
  apply andb_prop in H as [Hd Hs]. apply digit_val_range in Hd.
  specialize (IH (n * 10 + strconv.digit_val d) Hs). lia.
Qed.

Lemma uint_loop_value (maxVal : Z) (s : string) :
  forall n, string_forall strconv.is_digit s = true -> 0 <= n <= maxVal ->
    strconv.uint_loop maxVal s n =
    if dec_acc s n <=? maxVal then inl (dec_acc s n) else inr ErrRange.
Proof.
  induction s as [|d s IH]; simpl; intros n H Hn.
  - destruct (Z.leb_spec n maxVal); [reflexivity | lia].
  - apply andb_prop in H as [Hd Hs]. rewrite Hd.
    pose proof (digit_val_range _ Hd) as Hv.
    destruct (Z.ltb_spec maxVal (n * 10 + strconv.digit_val d)) as [Hlt|Hle].
    + pose proof (dec_acc_ge s (n * 10 + strconv.digit_val d) Hs ltac:(lia)).
      destruct (Z.leb_spec (dec_acc s (n * 10 + strconv.digit_val d)) maxVal);
        [lia | reflexivity].
    + apply IH; [assumption | lia].
Qed.

Lemma uint_loop_not_digits (maxVal : Z) (s : string) :
  forall n, string_forall strconv.is_digit s = false ->
    exists k, strconv.uint_loop maxVal s n = inr k.
Proof.
  induction s as [|d s IH]; simpl; intros n H; [discriminate|].
  destruct (strconv.is_digit d); [|now exists ErrSyntax].
  destruct (maxVal <? n * 10 + strconv.digit_val d); [now exists ErrRange|].
  now apply IH.
Qed.

(** [ParseUint] for 16 bits, case by case: a non-empty text of decimal
    digits is read as the number it denotes when that is below 65536 and
    refused with a range error otherwise; the empty text and a text with
    any other character are refused. *)
Lemma ParseUint_port (s : string) :
  (s <> "" -> string_forall strconv.is_digit s = true -> dec_value s < 65536 ->
     strconv.ParseUint s 16 = (dec_value s, None))
  /\ (s = "" -> strconv.ParseUint s 16 = (0, Some (NumError "ParseUint" s ErrSyntax)))
  /\ (string_forall strconv.is_digit s = true -> 65536 <= dec_value s ->
     strconv.ParseUint s 16 = (65535, Some (NumError "ParseUint" s ErrRange)))
  /\ (string_forall strconv.is_digit s = false ->
     exists v k, strconv.ParseUint s 16 = (v, Some (NumError "ParseUint" s k))).
Proof.
  split; [|split; [|split]].
  - intros Hne Hd Hv. destruct s as [|c s]; [contradiction|].
    unfold strconv.ParseUint. rewrite (uint_loop_value _ _ 0 Hd) by (simpl; lia).
    fold (dec_value (String c s)). change (2 ^ 16 - 1) with 65535.
    destruct (Z.leb_spec (dec_value (String c s)) 65535); [reflexivity | lia].
  - intros ->. reflexivity.
  - intros Hd Hv. destruct s as [|c s]; [unfold dec_value in Hv; simpl in Hv; lia|].
    unfold strconv.ParseUint. rewrite (uint_loop_value _ _ 0 Hd) by (simpl; lia).
    fold (dec_value (String c s)). change (2 ^ 16 - 1) with 65535.
    destruct (Z.leb_spec (dec_value (String c s)) 65535); [lia | reflexivity].
  - intros Hd. destruct s as [|c s]; [discriminate Hd|].
    unfold strconv.ParseUint.
    destruct (uint_loop_not_digits (2 ^ 16 - 1) _ 0 Hd) as [k ->].
    destruct k; do 2 eexists; reflexivity.
Qed.

(** ** The diagnostic scanner *)

Lemma scan_line_unmatched (text : string) :
  FindStringSubmatch errFormat 3 text = [] -> scan_line text = Panic index_panic.
Proof. unfold scan_line. now intros ->. Qed.

Lemma scan_line_not_blocked (text : string) : scan_line text <> Blocked.
Proof.
  unfold scan_line.
  destruct (nth_error _ 2); [|discriminate].
  destruct (strconv.ParseInt _ _).
  destruct (nth_error _ 1); [|discriminate].
  destruct (nth_error _ 3); discriminate.
Qed.

Lemma scan_line_panic_text (text t : string) : scan_line text = Panic t -> t = index_panic.
Proof.
  unfold scan_line.
  destruct (nth_error _ 2); [|congruence].
  destruct (strconv.ParseInt _ _).
  destruct (nth_error _ 1); [|congruence].
  destruct (nth_error _ 3); congruence.
Qed.

(** Once a line without a match is among the lines, the loop ends in the
    panic of the index expression, whatever precedes that line. *)
Lemma scan_lines_unmatched (pre : list string) :
  forall out text rest,
    FindStringSubmatch errFormat 3 text = [] ->
    exists out', scan_lines (pre ++ text :: rest)%list out = (out', Panic index_panic).
Proof.
  induction pre as [|l pre IH]; intros out text rest H; simpl.
  - rewrite (scan_line_unmatched _ H). now exists out.
  - destruct (scan_line l) as [e|t|] eqn:E.
    + apply IH, H.
    + apply scan_line_panic_text in E as ->. now exists out.
    + now apply scan_line_not_blocked in E.
Qed.

(** C8: on the input line [[ERROR:file.cc(42)] boom] the scanner sends
    exactly one record on its output channel, with file "file.cc", line 42
    and message "boom", and returns; so does the method of the earlier
    revision. *)
Theorem Scan_structured_line :
  FindStringSubmatch errFormat 3 error_line = [error_line; "file.cc"; "42"; "boom"]
  /\ Scan (mkReader [error_line] None)
     = ([ScanError (mkError "file.cc" 42 "boom")], Ret tt)
  /\ Legacy.chromium_Scan (mkReader [error_line] None)
     = ([ScanError (mkError "file.cc" 42 "boom")], Ret tt, true)
  /\ Error_File (mkError "file.cc" 42 "boom") = "file.cc"
  /\ Error_Line (mkError "file.cc" 42 "boom") = 42
  /\ Error_Message (mkError "file.cc" 42 "boom") = "boom".
Proof. vm_compute. repeat split. Qed.

(** C1: a line the pattern does not match is not dropped.  [parts] is
    then the nil slice, [parts[2]] panics, and the scan ends there: nothing
    is sent for the line, and no later line is read.  This holds for the
    function [Scan] and for the method of the earlier revision. *)
Theorem Scan_unmatched_line_panics (pre rest : list string) (text : string)
    (err : option error) :
  FindStringSubmatch errFormat 3 text = [] ->
  (exists out, Scan (mkReader (pre ++ text :: rest) err) = (out, Panic index_panic))
  /\ (exists out, Legacy.chromium_Scan (mkReader (pre ++ text :: rest) err)
                  = (out, Panic index_panic, true)).
Proof.
  intros H.
  destruct (scan_lines_unmatched pre [] text rest H) as [out E].
  split; exists out.
  - unfold Scan; simpl. now rewrite E.
  - unfold Legacy.chromium_Scan; simpl. now rewrite E.
Qed.

Lemma Scan_unmatched_line_panics_witness :
  FindStringSubmatch errFormat 3 "hello" = []
  /\ (exists out, Scan (mkReader ["hello"; error_line] None)
                  = (out, Panic index_panic))
  /\ (exists out, Legacy.chromium_Scan (mkReader ["hello"; error_line] None)
                  = (out, Panic index_panic, true)).
Proof.
  split; [reflexivity|].
  apply (Scan_unmatched_line_panics [] [error_line] "hello" None).
  reflexivity.
Defined.

(** The failing run in full: the line [hello] first, a well-formed line
    after it; nothing at all reaches the channel. *)
Example Scan_hello :
  Scan (mkReader ["hello"; error_line] None) = ([], Panic index_panic).
Proof. reflexivity. Qed.

Lemma string_forall_app (p : ascii -> bool) (a b : string) :
  string_forall p (a ++ b) = string_forall p a && string_forall p b.
Proof.
  induction a as [|x a IH]; simpl; [reflexivity|].
  now rewrite IH, andb_assoc.
Qed.

Lemma uitoa_lacks_colon (a : byte) : lacks ":" (net.uitoa a) = true.
Proof. destruct a; reflexivity. Qed.

Lemma dotted_lacks_colon (s : string) : is_dotted s -> lacks ":" s = true.
Proof.
  intros (a & b & c & d & ->). unfold dotted, lacks.
  rewrite !string_forall_app.
  fold (lacks ":" (net.uitoa a)). fold (lacks ":" (net.uitoa b)).
  fold (lacks ":" (net.uitoa c)). fold (lacks ":" (net.uitoa d)).
  now rewrite !uitoa_lacks_colon.
Qed.

(** Two or more groups are never printed without a colon. *)
Lemma print_groups_colon (g0 g1 : N) (t : list N) (e0 e1 : nat) :
  lacks ":" (net.print_groups (g0 :: g1 :: t) 0 e0 e1 false) = false.
Proof.
  assert (Hrest : (e0 <=? 0)%nat && (0 <? e1)%nat = false ->
            lacks ":" (net.print_groups (g1 :: t) 1 e0 e1 true) = false).
  { intros E0. unfold lacks. cbn [net.print_groups].
    destruct ((e0 <=? 1)%nat && (1 <? e1)%nat) eqn:E1.
    - destruct (Nat.eqb_spec 1 e0) as [<-|Hne]; [reflexivity|].
      exfalso. apply andb_prop in E1 as [Ha Hb].
      apply Nat.leb_le in Ha. apply Nat.ltb_lt in Hb.
      assert (e0 = 0%nat) by lia. subst e0.
      assert (Hc : (0 <? e1)%nat = true) by (apply Nat.ltb_lt; lia).
      now rewrite Hc in E0.
    - reflexivity. }
  change (net.print_groups (g0 :: g1 :: t) 0 e0 e1 false)
    with (if ((e0 <=? 0)%nat && (0 <? e1)%nat)
          then (if (0 =? e0)%nat then "::" else "")
               ++ net.print_groups (g1 :: t) 1 e0 e1 false
          else "" ++ net.appendHex g0 ++ net.print_groups (g1 :: t) 1 e0 e1 true).
  destruct ((e0 <=? 0)%nat && (0 <? e1)%nat) eqn:E0.
  - apply andb_prop in E0 as [E0 _]. apply Nat.leb_le in E0.
    assert (e0 = 0%nat) by lia. subst e0. reflexivity.
  - change ("" ++ ?x) with x. unfold lacks in *.
    rewrite string_forall_app, (Hrest eq_refl). apply andb_false_r.
Qed.

(** A 16-byte address without a 4-byte form is printed with a colon. *)
Lemma IP_String_colon (ip : net.IP) :
  length ip = 16%nat -> net.To4 ip = None -> lacks ":" (net.IP_String ip) = false.
Proof.
  intros Hlen H4.
  do 16 (destruct ip as [|? ip]; [discriminate Hlen|]).
  destruct ip; [|discriminate Hlen].
  unfold net.IP_String. rewrite H4. cbn [length Nat.eqb net.groups].
  destruct (net.longest_run _ 0 0 0) as [e0 len].
  destruct (len <=? 1)%nat; apply print_groups_colon.
Qed.

(** ** The flag model *)

(** C9 as stated fails: the flag [Address] of the IPv6 loopback address
    is rendered with the colon form [::1], which is not the dotted form of
    any four bytes. *)
Lemma Flag_String_dotted_counterexample :
  is_bool (VIP ip6_loopback) = false
  /\ Flag_String (Address ip6_loopback) = "--remote-debugging-address=::1"
  /\ fmt_v (VIP ip6_loopback) = "::1"
  /\ ~ is_dotted (fmt_v (VIP ip6_loopback)).
Proof.
  split; [reflexivity|]. split; [reflexivity|]. split; [reflexivity|].
  intros H. apply dotted_lacks_colon in H. discriminate H.
Qed.

(** C9, amended: a flag with the value [true] renders as [--key], with
    [false] as the empty string, and with a value that is no boolean as
    [--key=<value>], the value printed by its type: integers in decimal
    (the text reads back as the number), a size as [W,H], an IP address
    that has a 4-byte form ([net.IPv4], or four bytes) in dotted form, and
    a 16-byte IP address without a 4-byte form never in dotted form but as
    [net.IP.String] prints it, with colons. *)
Theorem Flag_String_render (key : string) :
  Flag_String (mkFlag key (VBool true)) = "--" ++ key
  /\ Flag_String (mkFlag key (VBool false)) = ""
  /\ (forall v, is_bool v = false ->
        Flag_String (mkFlag key v) = "--" ++ key ++ "=" ++ fmt_v v)
  /\ (forall n, fmt_v (VInt n) = strconv.Itoa n /\ fmt_v (VUint16 n) = strconv.Itoa n
        /\ option_map Z.of_int (NilZero.int_of_string (strconv.Itoa n)) = Some n)
  /\ (forall ip a b c d, net.To4 ip = Some (a, b, c, d) ->
        fmt_v (VIP ip)
        = net.uitoa a ++ "." ++ net.uitoa b ++ "." ++ net.uitoa c ++ "." ++ net.uitoa d)
  /\ (forall s, fmt_v (VString s) = s)
  /\ (forall w h,
        Flag_String (Size w h)
        = "--window-size=" ++ strconv.Itoa w ++ "," ++ strconv.Itoa h)
  /\ (forall ip, length ip = 16%nat -> net.To4 ip = None ->
        fmt_v (VIP ip) = net.IP_String ip
        /\ lacks ":" (fmt_v (VIP ip)) = false
        /\ ~ is_dotted (fmt_v (VIP ip))).
Proof.
  repeat split; try reflexivity.
  - intros v Hv. destruct v; try discriminate; reflexivity.
  - apply Itoa_reads_back.
  - intros ip a b c d H. simpl. unfold net.IP_String. rewrite H.
    destruct ip; [discriminate | reflexivity].
  - now apply IP_String_colon.
  - intros Hd. apply dotted_lacks_colon in Hd. simpl in Hd.
    now rewrite IP_String_colon in Hd.
Qed.

Lemma Flag_String_render_witness :
  is_bool (VIP (net.IPv4 x7f x00 x00 x01)) = false
  /\ Flag_String (Address (net.IPv4 x7f x00 x00 x01))
     = "--remote-debugging-address=127.0.0.1"
  /\ net.To4 (net.IPv4 x7f x00 x00 x01) = Some (x7f, x00, x00, x01)
  /\ fmt_v (VIP (net.IPv4 x7f x00 x00 x01)) = "127.0.0.1"
  /\ (length ip6_loopback = 16%nat /\ net.To4 ip6_loopback = None)
  /\ lacks ":" (fmt_v (VIP ip6_loopback)) = false.
Proof.
  pose proof (Flag_String_render "remote-debugging-address")
    as (_ & _ & Hother & _ & Hip & _ & _ & Hv6).
  split; [reflexivity|]. split; [|split; [reflexivity|split; [|split]]].
  - apply (Hother (VIP (net.IPv4 x7f x00 x00 x01))). reflexivity.
  - apply (Hip (net.IPv4 x7f x00 x00 x01) x7f x00 x00 x01). reflexivity.
  - split; reflexivity.
  - apply (Hv6 ip6_loopback); reflexivity.
Defined.

Example Flag_String_examples :
  map Flag_String
    [ mkFlag "headless" (VBool true); mkFlag "mute-audio" (VBool false);
      Port 9222; Data "/tmp/profile"; Size 1920 1080;
      Address [xc0; xa8; x00; x01]; mkFlag "remote-debugging-port" (VInt 0) ]
  = [ "--headless"; ""; "--remote-debugging-port=9222";
      "--user-data-dir=/tmp/profile"; "--window-size=1920,1080";
      "--remote-debugging-address=192.168.0.1"; "--remote-debugging-port=0" ].
Proof. reflexivity. Qed.

(** C10 as stated fails: a value of no enumerated type, here the nil
    interface value, is rendered and no error is reported. *)
Lemma render_unsupported_counterexample :
  enumerated (Value (mkFlag "proxy-server" VNil)) = false
  /\ render (mkFlag "proxy-server" VNil) = Rendered "--proxy-server=<nil>"
  /\ render (mkFlag "proxy-server" VNil) <> UnsupportedValueType.
Proof. repeat split; discriminate. Qed.

(** C10, amended: rendering is total over every value, of an enumerated
    type or not, and never reports [UnsupportedValueType]: the boolean
    [true] renders as [--key], the boolean [false] as the empty string, and
    every other value, one of a type outside the enumerated set included,
    as [--key=] followed by its [%v] text: a string as it is, an integer
    in decimal, an IP address as [net.IP.String] prints it, the nil value
    as [<nil>], a value of any further type as [%v] prints it. *)
Theorem render_total (flag : Flag) :
  (exists s, render flag = Rendered s)
  /\ render flag <> UnsupportedValueType
  /\ (Value flag = VBool true -> render flag = Rendered ("--" ++ Key flag))
  /\ (Value flag = VBool false -> render flag = Rendered "")
  /\ (is_bool (Value flag) = false ->
      render flag = Rendered ("--" ++ Key flag ++ "=" ++ fmt_v (Value flag)))
  /\ (enumerated (Value flag) = false ->
      render flag = Rendered ("--" ++ Key flag ++ "=" ++ fmt_v (Value flag)))
  /\ (forall s, fmt_v (VString s) = s)
  /\ (forall n, fmt_v (VInt n) = strconv.Itoa n /\ fmt_v (VUint16 n) = strconv.Itoa n)
  /\ (forall ip, fmt_v (VIP ip) = net.IP_String ip)
  /\ fmt_v VNil = "<nil>"
  /\ (forall gotype text, fmt_v (VOther gotype text) = text).
Proof.
  split; [now exists (Flag_String flag)|]. split; [discriminate|].
  destruct flag as [k v]; unfold render, Flag_String; cbn [Key Value].
  split; [now intros ->|]. split; [now intros ->|].
  split; [intros H; destruct v; try discriminate; reflexivity|].
  split; [intros H; destruct v; try discriminate; reflexivity|].
  repeat split.
Qed.

Lemma render_total_witness :
  (enumerated (Value (mkFlag "proxy-server" (VOther "float64" "1.5"))) = false
   /\ render (mkFlag "proxy-server" (VOther "float64" "1.5"))
      = Rendered "--proxy-server=1.5")
  /\ (Value (mkFlag "headless" (VBool true)) = VBool true
      /\ render (mkFlag "headless" (VBool true)) = Rendered "--headless")
  /\ (Value (mkFlag "mute-audio" (VBool false)) = VBool false
      /\ render (mkFlag "mute-audio" (VBool false)) = Rendered "")
  /\ (is_bool (Value (Data "/tmp/profile")) = false
      /\ render (Data "/tmp/profile") = Rendered "--user-data-dir=/tmp/profile").
Proof.
  split; [split; [reflexivity|]|split; [split; [reflexivity|]|
    split; [split; [reflexivity|]|split; [reflexivity|]]]].
  - destruct (render_total (mkFlag "proxy-server" (VOther "float64" "1.5")))
      as (_ & _ & _ & _ & _ & H & _). apply H. reflexivity.
  - destruct (render_total (mkFlag "headless" (VBool true))) as (_ & _ & H & _).
    apply H. reflexivity.
  - destruct (render_total (mkFlag "mute-audio" (VBool false))) as (_ & _ & _ & H & _).
    apply H. reflexivity.
  - destruct (render_total (Data "/tmp/profile")) as (_ & _ & _ & _ & H & _).
    apply H. reflexivity.
Defined.

(** ** State errors *)

(** C7: [Start] on a record that holds a process handle returns
    [ErrProcessRunning], and [Stop] and [Wait] on a record without one
    return [ErrProcessNotRunning]; in each case the record (every field,
    the port of the earlier revision included) and the operating-system
    state (no directory removed) are the ones the call was given. *)
Theorem state_errors_no_effect :
  (forall env c os k, cmd c = Some k ->
     chromium_Start env c os = (Ret (0, Some ErrProcessRunning), c, os))
  /\ (forall kill c os, cmd c = None ->
     chromium_Stop kill c os = (Ret (Some ErrProcessNotRunning), c, os))
  /\ (forall exit c os, cmd c = None ->
     chromium_Wait exit c os = (Ret (Some ErrProcessNotRunning), c, os))
  /\ (forall env c os k, Legacy.cmd c = Some k ->
     Legacy.chromium_Start env c os = (Ret (Some ErrProcessRunning), c, os))
  /\ (forall kill c os, Legacy.cmd c = None ->
     Legacy.chromium_Stop kill c os = (Ret (Some ErrProcessNotRunning), c, os))
  /\ (forall exit c os, Legacy.cmd c = None ->
     Legacy.chromium_Wait exit c os = (Ret (Some ErrProcessNotRunning), c, os)).
Proof.
  repeat split; intros.
  - unfold chromium_Start. now rewrite H.
  - unfold chromium_Stop. now rewrite H.
  - unfold chromium_Wait. now rewrite H.
  - unfold Legacy.chromium_Start. now rewrite H.
  - unfold Legacy.chromium_Stop. now rewrite H.
  - unfold Legacy.chromium_Wait. now rewrite H.
Qed.

Lemma state_errors_no_effect_witness :
  (Legacy.cmd legacy_running <> None /\ Legacy.port legacy_running = 9222)
  /\ Legacy.chromium_Start second_env legacy_running os_running
     = (Ret (Some ErrProcessRunning), legacy_running, os_running)
  /\ chromium_Stop None fresh (mkOS ["/tmp/other"] [])
     = (Ret (Some ErrProcessNotRunning), fresh, mkOS ["/tmp/other"] [])
  /\ chromium_Wait (Some None) fresh (mkOS ["/tmp/other"] [])
     = (Ret (Some ErrProcessNotRunning), fresh, mkOS ["/tmp/other"] []).
Proof.
  destruct state_errors_no_effect as (_ & Hstop & Hwait & Hstart & _ & _).
  split; [split; [discriminate | reflexivity]|].
  split; [|split].
  - destruct (Legacy.cmd legacy_running) as [k|] eqn:E; [|discriminate E].
    exact (Hstart _ legacy_running _ k E).
  - apply Hstop. reflexivity.
  - apply Hwait. reflexivity.
Defined.

(** ** Stop *)

Lemma RemoveAll_gone (d : string) (os : OS) : ~ In d (dirs (RemoveAll d os)).
Proof.
  unfold RemoveAll; simpl. rewrite filter_In. intros [_ H].
  now rewrite String.eqb_refl in H.
Qed.

(** C6: [Stop] on a record that holds a process handle always runs the
    cleanup: afterwards the handle and the data-directory field are
    cleared, the data directory, when the field was not empty, is removed,
    and nothing else of the record changes.  When the process was started,
    [Stop] returns what the kill reported, so a kill error is the value
    returned, with the cleanup done all the same. *)
Theorem Stop_cleans_up (kill : option error) (c : chromium) (os : OS) (k : Cmd) :
  cmd c = Some k ->
  exists r os1,
    chromium_Stop kill c os = (r, mkChromium (path c) "" (flags c) None, os1)
    /\ dirs os1 = (if String.eqb (data c) "" then dirs os
                   else dirs (RemoveAll (data c) os))
    /\ (data c <> "" -> ~ In (data c) (dirs os1))
    /\ (forall pid, Process k = Some pid -> r = Ret kill)
    /\ (forall pid err, Process k = Some pid -> kill = Some err ->
          r = Ret (Some err) /\ running os1 = running os).
Proof.
  intros Hk. unfold chromium_Stop, chromium_Cleanup. rewrite Hk.
  assert (Hgone : forall o, data c <> "" ->
            ~ In (data c) (dirs (if String.eqb (data c) "" then o
                                 else RemoveAll (data c) o))).
  { intros o Hd. destruct (String.eqb_spec (data c) "") as [E|_];
      [contradiction | apply RemoveAll_gone]. }
  assert (Hdirs : forall o, dirs o = dirs os ->
            dirs (if String.eqb (data c) "" then o else RemoveAll (data c) o)
            = (if String.eqb (data c) "" then dirs os
               else dirs (RemoveAll (data c) os))).
  { intros o Ho. destruct (String.eqb (data c) ""); [exact Ho|].
    unfold RemoveAll; simpl. now rewrite Ho. }
  assert (Hrun : forall o,
            running (if String.eqb (data c) "" then o else RemoveAll (data c) o)
            = running o).
  { intros o. destruct (String.eqb (data c) ""); reflexivity. }
  destruct (Process k) as [pid|] eqn:Hp; [destruct kill as [err|]|];
    simpl; do 2 eexists; (split; [reflexivity|]);
    (split; [apply Hdirs; reflexivity|]); (split; [apply Hgone|]);
    (split; [intros; try reflexivity; discriminate|]).
  - intros pid' err' _ E. injection E as <-. split; [reflexivity | apply Hrun].
  - discriminate.
  - discriminate.
Qed.

Lemma Stop_cleans_up_witness :
  exists k, cmd running1 = Some k /\ data running1 = "/tmp/chromium-1"
  /\ exists r os',
       chromium_Stop kill_error running1 os_running
       = (r, mkChromium "chrome" "" (flags running1) None, os')
       /\ r = Ret kill_error /\ dirs os' = [] /\ running os' = [100].
Proof.
  eexists. split; [reflexivity|]. split; [reflexivity|].
  destruct (Stop_cleans_up kill_error running1 os_running _ eq_refl)
    as (r & os' & Hs & Hd & _ & Hr & Hk).
  exists r, os'. split; [exact Hs|]. split; [|split].
  - apply (Hr 100). reflexivity.
  - rewrite Hd. reflexivity.
  - apply (Hk 100 (OSError "os: process already finished")); reflexivity.
Defined.

(** ** The argument list *)

Lemma find_flag_app (key : string) (fs gs : list Flag) :
  find_flag key (fs ++ gs) =
  match find_flag key fs with
  | Some v => Some v
  | None => find_flag key gs
  end.
Proof.
  induction fs as [|f fs IH]; simpl; [reflexivity|].
  now destruct (String.eqb (Key f) key).
Qed.

Lemma launch_args (env : StartEnv) (c : chromium) (os : OS) :
  forall r c' os', launch env c os = (r, c', os') ->
    path c' = path c /\ data c' = data c /\ flags c' = flags c
    /\ exists pr, cmd c' = Some (mkCmd (path c) (path c :: map Flag_String (flags c)) pr).
Proof.
  unfold launch. intros r c' os'.
  destruct (StderrPipe env); [|destruct (watcher_Add env); [|destruct (cmd_Start env) as [pid [e|]]]];
    intros H; injection H as <- <- <-; simpl; repeat split; eexists; reflexivity.
Qed.

Lemma defaults_flags (c : chromium) :
  path (defaults c) = path c /\ data (defaults c) = data c /\ cmd (defaults c) = cmd c
  /\ flags (defaults c) =
     (flags c ++
      (match find_flag "remote-debugging-address" (flags c) with
       | Some _ => []
       | None => [mkFlag "remote-debugging-address" (VIP loopback)]
       end) ++
      (match find_flag "remote-debugging-port" (flags c) with
       | Some _ => []
       | None => [mkFlag "remote-debugging-port" (VInt 0)]
       end))%list.
Proof.
  unfold defaults, chromium_Flag.
  destruct (find_flag "remote-debugging-address" (flags c)) eqn:Ha; simpl.
  - destruct (find_flag "remote-debugging-port" (flags c)) eqn:Hp; simpl;
      repeat split; now rewrite ?app_nil_r.
  - rewrite find_flag_app; simpl.
    destruct (find_flag "remote-debugging-port" (flags c)) eqn:Hp; simpl;
      repeat split; now rewrite <- ?app_assoc, ?app_nil_r.
Qed.

(** The flags on the record once [Start] has got as far as building the
    command: the flags it was called with, the mandatory ones, the
    defaults. *)
Lemma Start_flags (env : StartEnv) (c : chromium) (os : OS) :
  forall r c' os' k,
    cmd c = None ->
    chromium_Start env c os = (r, c', os') ->
    cmd c' = Some k ->
    flags c' = (flags c ++ mandatory ++ injected env (flags c))%list
    /\ Path k = path c /\ Args k = path c :: map Flag_String (flags c')
    /\ data c' = match find_flag "user-data-dir" (flags c) with
                 | Some (VString d) => d
                 | _ => fst (TempDir env)
                 end.
Proof.
  intros r c' os' k Hc. unfold chromium_Start, chromium_Flag, injected. rewrite Hc.
  cbn [flags set_flags]. rewrite find_flag_app.
  change (find_flag "user-data-dir" mandatory) with (@None any).
  assert (Hlaunch : forall x o,
            launch env (defaults x) o = (r, c', os') -> cmd c' = Some k ->
            path x = path c ->
            flags c' =
              (flags x ++
               (match find_flag "remote-debugging-address" (flags x) with
                | Some _ => []
                | None => [mkFlag "remote-debugging-address" (VIP loopback)]
                end) ++
               (match find_flag "remote-debugging-port" (flags x) with
                | Some _ => []
                | None => [mkFlag "remote-debugging-port" (VInt 0)]
                end))%list
            /\ Path k = path c /\ Args k = path c :: map Flag_String (flags c')
            /\ data c' = data x).
  { intros x o H Hk Hx. apply launch_args in H as (Hp & Hd & Hf & pr & Hcmd).
    destruct (defaults_flags x) as (Dp & Dd & _ & Df).
    rewrite Hcmd in Hk. injection Hk as <-. cbn [Path Args].
    rewrite Hf, Hd, Dp, Dd, Df, Hx. repeat split. }
  destruct (find_flag "user-data-dir" (flags c)) as [v|] eqn:Hu.
  - destruct v; try (intros H; injection H as <- <- <-; simpl; congruence).
    intros H Hk. apply Hlaunch in H as (Hf & HP & HA & Hd); [|exact Hk|reflexivity].
    cbn [flags set_data set_flags data] in Hf, Hd.
    rewrite !find_flag_app in Hf.
    change (find_flag "remote-debugging-address" mandatory) with (@None any) in Hf.
    change (find_flag "remote-debugging-port" mandatory) with (@None any) in Hf.
    repeat split; try assumption.
    rewrite Hf.
    destruct (find_flag "remote-debugging-address" (flags c));
      destruct (find_flag "remote-debugging-port" (flags c));
      simpl; now rewrite <- ?app_assoc.
  - destruct (TempDir env) as [d [e|]].
    + intros H; injection H as <- <- <-; simpl; congruence.
    + intros H Hk. apply Hlaunch in H as (Hf & HP & HA & Hd); [|exact Hk|reflexivity].
      cbn [flags set_data set_flags data fst] in Hf, Hd |- *.
      rewrite !find_flag_app in Hf.
      change (find_flag "remote-debugging-address" mandatory) with (@None any) in Hf.
      change (find_flag "remote-debugging-port" mandatory) with (@None any) in Hf.
      cbn [find_flag Key Value] in Hf.
      change (String.eqb "user-data-dir" "remote-debugging-address") with false in Hf.
      change (String.eqb "user-data-dir" "remote-debugging-port") with false in Hf.
      cbv iota in Hf.
      repeat split; try assumption.
      rewrite Hf.
      destruct (find_flag "remote-debugging-address" (flags c));
        destruct (find_flag "remote-debugging-port" (flags c));
        simpl; now rewrite <- ?app_assoc.
Qed.

(** C4 as stated fails: with the caller's flags [--window-size=800,600]
    alone, the three defaults follow the mandatory flags, so the mandatory
    flags are not the last entries of the argument list. *)
Lemma mandatory_last_counterexample :
  fst (fst (chromium_Start first_env sized os0)) = Ret (9222, None)
  /\ final_args (chromium_Start first_env sized os0) =
     [ "--window-size=800,600"; "--headless"; "--disable-gpu"; "--no-sandbox";
       "--user-data-dir=/tmp/chromium-1"; "--remote-debugging-address=127.0.0.1";
       "--remote-debugging-port=0" ]
  /\ ~ mandatory_last (final_args (chromium_Start first_env sized os0)).
Proof.
  split; [reflexivity|]. split; [reflexivity|].
  intros [others H]. apply (f_equal (@rev string)) in H.
  rewrite rev_app_distr in H. vm_compute in H. discriminate H.
Qed.

(** C4, amended: in the argument list [Start] builds, the mandatory flags
    headless, disable-gpu and no-sandbox appear, in that order, directly
    after all the flags the record held when [Start] was called, and
    before the defaults [Start] adds (user-data-dir,
    remote-debugging-address, remote-debugging-port, each only when the
    record had no flag of that key); they are the last entries when no
    default is added. *)
Theorem mandatory_after_caller_flags (env : StartEnv) (c : chromium) (os : OS)
    (r : outcome (Z * option error)) (c' : chromium) (os' : OS) (k : Cmd) :
  cmd c = None ->
  chromium_Start env c os = (r, c', os') ->
  cmd c' = Some k ->
  tl (Args k) = (map Flag_String (flags c) ++
                 ["--headless"; "--disable-gpu"; "--no-sandbox"] ++
                 map Flag_String (injected env (flags c)))%list
  /\ (forall f, In f (injected env (flags c)) ->
        In (Key f) ["user-data-dir"; "remote-debugging-address"; "remote-debugging-port"]
        /\ find_flag (Key f) (flags c) = None)
  /\ (injected env (flags c) = [] -> mandatory_last (tl (Args k))).
Proof.
  intros Hc Hs Hk.
  destruct (Start_flags env c os r c' os' k Hc Hs Hk) as (Hf & _ & Ha & _).
  assert (Hargs : tl (Args k) =
                  (map Flag_String (flags c) ++
                   ["--headless"; "--disable-gpu"; "--no-sandbox"] ++
                   map Flag_String (injected env (flags c)))%list).
  { rewrite Ha, Hf. simpl tl. now rewrite !map_app. }
  split; [exact Hargs|]. split.
  - unfold injected. intros f Hin.
    destruct (find_flag "user-data-dir" (flags c)) eqn:E1;
      destruct (find_flag "remote-debugging-address" (flags c)) eqn:E2;
      destruct (find_flag "remote-debugging-port" (flags c)) eqn:E3;
      simpl in Hin; intuition (subst; simpl; auto).
  - intros Hnone. rewrite Hargs, Hnone.
    exists (map Flag_String (flags c)). reflexivity.
Qed.

Lemma mandatory_after_caller_flags_witness :
  exists r c' os' k,
    cmd ported = None /\ chromium_Start first_env ported os0 = (r, c', os')
    /\ cmd c' = Some k
    /\ tl (Args k) =
       [ "--remote-debugging-port=9222"; "--window-size=800,600";
         "--headless"; "--disable-gpu"; "--no-sandbox";
         "--user-data-dir=/tmp/chromium-1"; "--remote-debugging-address=127.0.0.1" ].
Proof.
  do 4 eexists.
  split; [reflexivity|]. split; [reflexivity|]. split; [reflexivity|].
  exact (proj1 (mandatory_after_caller_flags first_env ported os0 _ _ _ _
                  eq_refl eq_refl eq_refl)).
Defined.

(** ** The readiness race *)

Lemma Start_reaches_race (env : StartEnv) (c : chromium) (os : OS) :
  setup_ok env c -> fst (fst (chromium_Start env c os)) = race_loop (race env).
Proof.
  intros (Hc & Hd & Hp & Hw & Hs).
  unfold chromium_Start, chromium_Flag. rewrite Hc. cbn [flags set_flags].
  rewrite find_flag_app.
  change (find_flag "user-data-dir" mandatory) with (@None any).
  assert (L : forall x o, fst (fst (launch env x o)) = race_loop (race env)).
  { intros x o. unfold launch. rewrite Hp, Hw.
    destruct (cmd_Start env) as [pid e]; simpl in Hs; subst e. reflexivity. }
  destruct (find_flag "user-data-dir" (flags c)) as [v|].
  - destruct v; try contradiction. apply L.
  - destruct (TempDir env) as [d e]; simpl in Hd; subst e. apply L.
Qed.

Lemma race_loop_skip (pre rest : list Select) :
  Forall ignored pre -> race_loop (pre ++ rest) = race_loop rest.
Proof.
  induction 1 as [|ev pre Hev _ IH]; [reflexivity|].
  destruct ev as [name p [f e]| |]; simpl in *; try contradiction.
  now rewrite Hev.
Qed.

Lemma Legacy_race_loop_skip (pre rest : list Select) (c : Legacy.chromium) :
  Forall ignored pre -> Legacy.race_loop (pre ++ rest) c = Legacy.race_loop rest c.
Proof.
  induction 1 as [|ev pre Hev _ IH]; [reflexivity|].
  destruct ev as [name p [f e]| |]; simpl in *; try contradiction.
  now rewrite Hev.
Qed.

Lemma Legacy_Start_reaches_race (env : StartEnv) (c : Legacy.chromium) (os : OS) :
  legacy_setup_ok env c ->
  exists c1 os1,
    Legacy.port c1 = Legacy.port c
    /\ Legacy.chromium_Start env c os
       = (fst (Legacy.race_loop (race env) c1), snd (Legacy.race_loop (race env) c1), os1).
Proof.
  intros (Hc & Hd & Hp & Hw & Hs). unfold Legacy.chromium_Start.
  rewrite Hc, Hp, Hw.
  destruct (TempDir env) as [d e]; simpl in Hd; subst e.
  destruct (cmd_Start env) as [pid e]; simpl in Hs; subst e.
  match goal with
  | |- context [Legacy.race_loop (race env) ?x] => exists x
  end.
  eexists. split; [reflexivity|].
  destruct (Legacy.race_loop _ _); reflexivity.
Qed.

(** C2 as stated fails: a marker file whose first line is the port 9222
    and whose second line is the debugger path makes [Start] return the
    syntax error of [ParseUint], not the port. *)
Lemma marker_first_line_counterexample :
  first_line two_line_file = "9222"
  /\ strconv.ParseUint (first_line two_line_file) 16 = (9222, None)
  /\ fst (fst (chromium_Start two_line_env fresh os0))
     = Ret (0, Some (NumError "ParseUint" two_line_file ErrSyntax))
  /\ fst (fst (Legacy.chromium_Start two_line_env legacy_fresh os0))
     = Ret (Some (NumError "ParseUint" two_line_file ErrSyntax)).
Proof. vm_compute. repeat split. Qed.

(** C2, amended: on the file-system event named [DevToolsActivePort],
    [Start] reads that file and parses its whole content as the decimal
    port number.  When the whole content is a non-empty text of decimal
    digits that denotes a number below 65536 (so: no newline, no further
    line), [Start] returns that number as the port (the earlier revision
    returns nil and records it); for every other content (empty, a
    character that is no digit, a number of 65536 or more) [Start] returns
    the error of [ParseUint].  So [Start] succeeds on the event exactly
    for such a content.  Events of other names before it are passed
    over. *)
Theorem Start_parses_whole_marker_file (env : StartEnv) (c : chromium)
    (lc : Legacy.chromium) (os : OS) (pre post : list Select) (p file : string) :
  setup_ok env c -> legacy_setup_ok env lc ->
  Forall ignored pre ->
  race env = (pre ++ Event marker p (file, None) :: post)%list ->
  (file <> "" -> string_forall strconv.is_digit file = true ->
   dec_value file < 65536 ->
     fst (fst (chromium_Start env c os)) = Ret (dec_value file, None)
     /\ (exists lc' os', Legacy.chromium_Start env lc os = (Ret None, lc', os')
                         /\ Legacy.port lc' = dec_value file))
  /\ (file = "" \/ string_forall strconv.is_digit file = false
      \/ 65536 <= dec_value file ->
     exists k,
       fst (fst (chromium_Start env c os))
       = Ret (0, Some (NumError "ParseUint" file k))
       /\ fst (fst (Legacy.chromium_Start env lc os))
          = Ret (Some (NumError "ParseUint" file k)))
  /\ (forall port, fst (fst (chromium_Start env c os)) = Ret (port, None) ->
     file <> "" /\ string_forall strconv.is_digit file = true
     /\ port = dec_value file /\ 0 <= port < 65536).
Proof.
  intros Hok Hlok Hpre Hrace.
  pose proof (Start_reaches_race env c os Hok) as Hs.
  destruct (Legacy_Start_reaches_race env lc os Hlok) as (c1 & os1 & Hport & Hl).
  rewrite Hrace, race_loop_skip in Hs by assumption.
  rewrite Hrace, Legacy_race_loop_skip in Hl by assumption.
  simpl in Hs, Hl.
  destruct (ParseUint_port file) as (Pgood & Pempty & Prange & Pbad).
  assert (Hgood : file <> "" -> string_forall strconv.is_digit file = true ->
            dec_value file < 65536 ->
            fst (fst (chromium_Start env c os)) = Ret (dec_value file, None)
            /\ (exists lc' os', Legacy.chromium_Start env lc os = (Ret None, lc', os')
                                /\ Legacy.port lc' = dec_value file)).
  { intros Hne Hd Hv. rewrite (Pgood Hne Hd Hv) in Hs, Hl.
    pose proof (dec_acc_ge file 0 Hd ltac:(lia)) as Hge. fold (dec_value file) in Hge.
    rewrite Z.mod_small in Hs, Hl by (change (2 ^ 16) with 65536; lia).
    split; [exact Hs|]. simpl in Hl. do 2 eexists. split; [exact Hl | reflexivity]. }
  assert (Hbad : file = "" \/ string_forall strconv.is_digit file = false
                 \/ 65536 <= dec_value file ->
            exists k,
              fst (fst (chromium_Start env c os))
              = Ret (0, Some (NumError "ParseUint" file k))
              /\ fst (fst (Legacy.chromium_Start env lc os))
                 = Ret (Some (NumError "ParseUint" file k))).
  { intros H.
    assert (E : exists v k, strconv.ParseUint file 16
                            = (v, Some (NumError "ParseUint" file k))).
    { destruct H as [H|[H|H]].
      - do 2 eexists. exact (Pempty H).
      - exact (Pbad H).
      - destruct (string_forall strconv.is_digit file) eqn:Hd.
        + do 2 eexists. exact (Prange eq_refl H).
        + exact (Pbad eq_refl). }
    destruct E as (v & k & E). rewrite E in Hs, Hl. exists k.
    split; [exact Hs | now rewrite Hl]. }
  split; [exact Hgood|]. split; [exact Hbad|].
  intros port Hret.
  destruct (string_dec file "") as [He|Hne].
  - destruct (Hbad (or_introl He)) as (k & Hk & _). congruence.
  - destruct (string_forall strconv.is_digit file) eqn:Hd.
    + destruct (Z_lt_ge_dec (dec_value file) 65536) as [Hv|Hv].
      * destruct (Hgood Hne eq_refl Hv) as [Hg _].
        rewrite Hg in Hret. injection Hret as <-.
        pose proof (dec_acc_ge file 0 Hd ltac:(lia)) as Hge.
        fold (dec_value file) in Hge. repeat split; (assumption || lia).
      * assert (Hle : 65536 <= dec_value file) by lia.
        destruct (Hbad (or_intror (or_intror Hle))) as (k & Hk & _). congruence.
    + destruct (Hbad (or_intror (or_introl eq_refl))) as (k & Hk & _). congruence.
Qed.

Lemma Start_parses_whole_marker_file_witness :
  (setup_ok first_env fresh /\ legacy_setup_ok first_env legacy_fresh
   /\ Forall ignored [other_event "/tmp/chromium-1"]
   /\ "9222" <> "" /\ string_forall strconv.is_digit "9222" = true
   /\ dec_value "9222" < 65536)
  /\ fst (fst (chromium_Start first_env fresh os0)) = Ret (9222, None)
  /\ (exists lc' os', Legacy.chromium_Start first_env legacy_fresh os0
                      = (Ret None, lc', os')
                      /\ Legacy.port lc' = 9222).
Proof.
  assert (H1 : setup_ok first_env fresh) by (repeat split).
  assert (H2 : legacy_setup_ok first_env legacy_fresh) by (repeat split).
  assert (H3 : Forall ignored [other_event "/tmp/chromium-1"])
    by (constructor; [reflexivity | constructor]).
  assert (H4 : "9222" <> "") by discriminate.
  assert (H5 : dec_value "9222" < 65536) by reflexivity.
  split; [repeat split; assumption|].
  destruct (Start_parses_whole_marker_file first_env fresh legacy_fresh os0
              [other_event "/tmp/chromium-1"] []
              "/tmp/chromium-1/DevToolsActivePort" "9222" H1 H2 H3 eq_refl)
    as [Hgood _].
  exact (Hgood H4 eq_refl H5).
Defined.

(** ** Errors of Start *)

(** C3: [Start] does not roll back.  On [New "chrome" []], when the stream
    cannot be acquired, the watch cannot be registered or the process
    cannot be started, [Start] returns the error with the command handle
    still on the record and the temporary directory still in place; when
    the race ends in an error, the handle stays and the child process 100
    keeps running.  The next [Start] on such a record reports
    [ErrProcessRunning]. *)
Theorem Start_error_no_rollback :
  start_failed pipe_fails (OSError "exec: Stderr already set") None
    (mkOS ["/tmp/chromium-1"] [])
  /\ start_failed watch_fails (OSError "watcher: permission denied") None
    (mkOS ["/tmp/chromium-1"] [])
  /\ start_failed spawn_fails (OSError "exec: chrome: executable file not found") None
    (mkOS ["/tmp/chromium-1"] [])
  /\ start_failed race_fails (ScanError (mkError "gpu_init.cc" 7 "boom")) (Some 100)
    (mkOS ["/tmp/chromium-1"] [100]).
Proof.
  repeat split; eexists; (split; [reflexivity|]); repeat split.
Qed.

(** Whatever the environment, an error [Start] returns after the command
    was built leaves the handle on the record. *)
Lemma Start_error_handle (env : StartEnv) (c : chromium) (os : OS) :
  forall p e c' os',
    cmd c = None ->
    chromium_Start env c os = (Ret (p, Some e), c', os') ->
    cmd c' = None ->
    find_flag "user-data-dir" (flags c) = None /\ snd (TempDir env) = Some e.
Proof.
  intros p e c' os' Hc. unfold chromium_Start, chromium_Flag. rewrite Hc.
  cbn [flags set_flags]. rewrite find_flag_app.
  change (find_flag "user-data-dir" mandatory) with (@None any).
  assert (L : forall x o, launch env x o = (Ret (p, Some e), c', os') -> cmd c' <> None).
  { intros x o H. apply launch_args in H as (_ & _ & _ & pr & Hk). congruence. }
  destruct (find_flag "user-data-dir" (flags c)) as [v|].
  - destruct v; try discriminate. intros H Hn. now apply L in H.
  - destruct (TempDir env) as [d [e'|]].
    + intros H _. injection H as <- <- <-. now split.
    + intros H Hn. now apply L in H.
Qed.

(** ** Start after Stop *)

(** C5: after a successful [Start] and a [Stop] the handle and the
    data-directory field are cleared and the temporary directory is
    removed, but the flag [user-data-dir] that [Start] appended stays in
    the record's flags.  The second [Start] finds it, takes the removed
    path [/tmp/chromium-1] as data directory again and never asks for the
    fresh one ([/tmp/chromium-2]); its argument list repeats the mandatory
    flags.  The earlier revision allocates the fresh directory. *)
Theorem restart_reuses_removed_dir :
  exists c1 c2 os2 c3 os3,
    chromium_Start first_env fresh os0 = (Ret (9222, None), c1, os_running)
    /\ data c1 = "/tmp/chromium-1"
    /\ chromium_Stop None c1 os_running = (Ret None, c2, os2)
    /\ cmd c2 = None /\ data c2 = "" /\ os2 = os0
    /\ find_flag "user-data-dir" (flags c2) = Some (VString "/tmp/chromium-1")
    /\ chromium_Start second_env c2 os2 = (Ret (9333, None), c3, os3)
    /\ data c3 = "/tmp/chromium-1" /\ dirs os3 = []
    /\ option_map Args (cmd c3) =
       Some [ "chrome"; "--headless"; "--disable-gpu"; "--no-sandbox";
              "--user-data-dir=/tmp/chromium-1";
              "--remote-debugging-address=127.0.0.1"; "--remote-debugging-port=0";
              "--headless"; "--disable-gpu"; "--no-sandbox" ]
    /\ (exists l1 l2 lo2 l3 lo3,
          Legacy.chromium_Start first_env legacy_fresh os0 = (Ret None, l1, os_running)
          /\ Legacy.chromium_Stop None l1 os_running = (Ret None, l2, lo2)
          /\ Legacy.chromium_Start second_env l2 lo2 = (Ret None, l3, lo3)
          /\ Legacy.data l3 = "/tmp/chromium-2" /\ dirs lo3 = ["/tmp/chromium-2"]).
Proof.
  do 5 eexists.
  split; [reflexivity|]. split; [reflexivity|]. split; [reflexivity|].
  split; [reflexivity|]. split; [reflexivity|]. split; [reflexivity|].
  split; [reflexivity|]. split; [reflexivity|]. split; [reflexivity|].
  split; [reflexivity|]. split; [reflexivity|].
  do 5 eexists.
  split; [reflexivity|]. split; [reflexivity|]. split; [reflexivity|].
  split; reflexivity.
Qed.

(** Whatever the second environment offers, a record whose flags already
    name a data directory is started on that directory. *)
Lemma Start_keeps_flagged_dir (env : StartEnv) (c : chromium) (os : OS) (d : string) :
  forall r c' os' k,
    cmd c = None ->
    find_flag "user-data-dir" (flags c) = Some (VString d) ->
    chromium_Start env c os = (r, c', os') ->
    cmd c' = Some k ->
    data c' = d /\ dirs os' = dirs os.
Proof.
  intros r c' os' k Hc Hf Hs Hk.
  destruct (Start_flags env c os r c' os' k Hc Hs Hk) as (_ & _ & _ & Hd).
  rewrite Hf in Hd. split; [exact Hd|].
  revert Hs. unfold chromium_Start, chromium_Flag. rewrite Hc.
  cbn [flags set_flags]. rewrite find_flag_app, Hf.
  unfold launch.
  destruct (StderrPipe env); [|destruct (watcher_Add env);
    [|destruct (cmd_Start env) as [pid [e|]]]];
    intros H; injection H as <- <- <-; reflexivity.
Qed.

(** * Further properties of the code *)

(** ** The matcher *)

Lemma one_sound (p : ascii -> bool) (k : cont) (s : string) (c res : caps) :
  one p k s c = Some res ->
  exists x s', s = String x s' /\ p x = true /\ k s' c = Some res.
Proof.
  destruct s as [|x s']; simpl; [discriminate|].
  destruct (p x) eqn:Hp; [|discriminate].
  intros H. now exists x, s'.
Qed.

Lemma loop_sound (p : ascii -> bool) (step : cont -> cont) :
  (forall k s c res, step k s c = Some res ->
     exists x s', s = String x s' /\ p x = true /\ k s' c = Some res) ->
  forall fuel k s c res, loop fuel step k s c = Some res ->
    exists pre s', s = pre ++ s' /\ string_forall p pre = true /\ k s' c = Some res.
Proof.
  intros Hstep. induction fuel as [|fuel IH]; intros k s c res; simpl.
  - intros H. now exists "", s.
  - destruct (step _ s c) as [r|] eqn:E.
    + intros H; injection H as ->.
      apply Hstep in E as (x & s' & -> & Hp & Hk).
      destruct (String.length s' <? String.length (String x s'))%nat; [|discriminate].
      apply IH in Hk as (pre & s2 & -> & Hall & Hk).
      exists (String x pre), s2. simpl. now rewrite Hp, Hall.
    + intros H. now exists "", s.
Qed.

Lemma class_sound (r : re) (p : ascii -> bool) :
  (forall k s c, rmatch r k s c = one p k s c) ->
  forall k s c res,
    (rmatch (Plus r) k s c = Some res ->
     exists pre s', s = pre ++ s' /\ pre <> "" /\ string_forall p pre = true
                    /\ k s' c = Some res)
    /\ (rmatch (Star r) k s c = Some res ->
     exists pre s', s = pre ++ s' /\ string_forall p pre = true /\ k s' c = Some res).
Proof.
  intros Hr k s c res.
  assert (Hstep : forall k s c res, rmatch r k s c = Some res ->
            exists x s', s = String x s' /\ p x = true /\ k s' c = Some res).
  { intros k0 s0 c0 res0. rewrite Hr. apply one_sound. }
  split.
  - change (rmatch (Plus r) k s c)
      with (rmatch r (fun s' c' => loop (S (String.length s')) (rmatch r) k s' c') s c).
    intros H. apply Hstep in H as (x & s' & -> & Hp & Hk).
    apply (loop_sound p _ Hstep) in Hk as (pre & s2 & -> & Hall & Hk).
    exists (String x pre), s2. simpl. rewrite Hp, Hall. repeat split; auto; discriminate.
  - change (rmatch (Star r) k s c) with (loop (S (String.length s)) (rmatch r) k s c).
    apply (loop_sound p _ Hstep).
Qed.

Lemma string_length_app (a b : string) :
  String.length (a ++ b) = (String.length a + String.length b)%nat.
Proof. induction a as [|x a IH]; simpl; [reflexivity | now rewrite IH]. Qed.

Lemma substring_app (a b : string) :
  substring 0 (String.length (a ++ b) - String.length b) (a ++ b) = a.
Proof.
  rewrite string_length_app, Nat.add_sub.
  induction a as [|x a IH]; simpl.
  - now destruct b.
  - now rewrite IH.
Qed.

Lemma Lit_sound (a : ascii) (k : cont) (s : string) (c res : caps) :
  rmatch (Lit a) k s c = Some res ->
  exists s', s = String a s' /\ k s' c = Some res.
Proof.
  change (rmatch (Lit a) k s c) with (one (Ascii.eqb a) k s c).
  intros H. apply one_sound in H as (x & s' & -> & Hx & Hk).
  apply Ascii.eqb_eq in Hx as <-. now exists s'.
Qed.

Lemma search_sound (r : re) (s : string) (c : caps) :
  search r s = Some c ->
  exists before s0,
    s = before ++ s0 /\ rmatch (Group 0 r) (fun _ c => Some c) s0 [] = Some c.
Proof.
  induction s as [|x s IH]; simpl.
  - destruct (rmatch r _ "" []) eqn:E; [|discriminate].
    intros H; injection H as ->. now exists "", "".
  - destruct (rmatch r _ (String x s) []) eqn:E.
    + intros H; injection H as ->. now exists "", (String x s).
    + intros H. apply IH in H as (before & s0 & -> & H).
      now exists (String x before), s0.
Qed.

(** The shape of a text [errFormat] matches at its start, and the groups
    the match reports. *)
Lemma errFormat_sound (s0 : string) (c : caps) :
  rmatch (Group 0 errFormat) (fun _ c => Some c) s0 [] = Some c ->
  exists prefix f ds sp m rest,
    s0 = "[" ++ prefix ++ ":" ++ f ++ "(" ++ ds ++ ")]" ++ sp ++ m ++ rest
    /\ lookup 1 c = f /\ lookup 2 c = ds /\ lookup 3 c = m
    /\ f <> "" /\ ds <> "" /\ sp <> "" /\ m <> ""
    /\ string_forall not_newline prefix = true
    /\ string_forall not_newline f = true
    /\ string_forall strconv.is_digit ds = true
    /\ string_forall is_space sp = true
    /\ string_forall not_newline m = true.
Proof.
  assert (HDot : forall k s c, rmatch Dot k s c = one not_newline k s c) by reflexivity.
  assert (HDigit : forall k s c, rmatch Digit k s c = one strconv.is_digit k s c)
    by reflexivity.
  assert (HSpace : forall k s c, rmatch Space k s c = one is_space k s c) by reflexivity.
  unfold errFormat, seq_of. cbn [fold_right].
  change (rmatch (Group 0 ?r) ?k s0 [])
    with (rmatch r (fun s' c' =>
            k s' ((0%nat, substring 0 (String.length s0 - String.length s') s0) :: c'))
            s0 []).
  cbv beta.
  intros H.
  change (rmatch (Cat ?a ?b) ?k ?s ?c) with (rmatch a (rmatch b k) s c) in H.
  apply Lit_sound in H as (s1 & -> & H).
  change (rmatch (Cat ?a ?b) ?k ?s ?c) with (rmatch a (rmatch b k) s c) in H.
  apply (proj2 (class_sound Dot _ HDot _ _ _ _)) in H as (prefix & s2 & -> & Hprefix & H).
  change (rmatch (Cat ?a ?b) ?k ?s ?c) with (rmatch a (rmatch b k) s c) in H.
  apply Lit_sound in H as (s3 & -> & H).
  change (rmatch (Cat ?a ?b) ?k ?s ?c) with (rmatch a (rmatch b k) s c) in H.
  change (rmatch (Group 1 ?r) ?k ?s ?c)
    with (rmatch r (fun s' c' =>
            k s' ((1%nat, substring 0 (String.length s - String.length s') s) :: c'))
            s c) in H.
  apply (proj1 (class_sound Dot _ HDot _ _ _ _)) in H as (f & s4 & -> & Hf0 & Hf & H).
  rewrite substring_app in H.
  change (rmatch (Cat ?a ?b) ?k ?s ?c) with (rmatch a (rmatch b k) s c) in H.
  apply Lit_sound in H as (s5 & -> & H).
  change (rmatch (Cat ?a ?b) ?k ?s ?c) with (rmatch a (rmatch b k) s c) in H.
  change (rmatch (Group 2 ?r) ?k ?s ?c)
    with (rmatch r (fun s' c' =>
            k s' ((2%nat, substring 0 (String.length s - String.length s') s) :: c'))
            s c) in H.
  apply (proj1 (class_sound Digit _ HDigit _ _ _ _)) in H
    as (ds & s6 & -> & Hd0 & Hd & H).
  rewrite substring_app in H.
  change (rmatch (Cat ?a ?b) ?k ?s ?c) with (rmatch a (rmatch b k) s c) in H.
  apply Lit_sound in H as (s7 & -> & H).
  change (rmatch (Cat ?a ?b) ?k ?s ?c) with (rmatch a (rmatch b k) s c) in H.
  apply Lit_sound in H as (s8 & -> & H).
  change (rmatch (Cat ?a ?b) ?k ?s ?c) with (rmatch a (rmatch b k) s c) in H.
  apply (proj1 (class_sound Space _ HSpace _ _ _ _)) in H
    as (sp & s9 & -> & Hs0 & Hs & H).
  change (rmatch (Cat ?a ?b) ?k ?s ?c) with (rmatch a (rmatch b k) s c) in H.
  change (rmatch (Group 3 ?r) ?k ?s ?c)
    with (rmatch r (fun s' c' =>
            k s' ((3%nat, substring 0 (String.length s - String.length s') s) :: c'))
            s c) in H.
  apply (proj1 (class_sound Dot _ HDot _ _ _ _)) in H as (m & rest & -> & Hm0 & Hm & H).
  rewrite substring_app in H.
  change (rmatch Eps ?k ?s ?c) with (k s c) in H. cbv beta in H.
  injection H as <-.
  exists prefix, f, ds, sp, m, rest. simpl. repeat split; assumption.
Qed.

(** ** Numbers *)

(** On a non-empty text of decimal digits [ParseInt] for 32 bits yields
    the number the digits denote, or [MaxInt32] with a range error when
    that number is larger. *)
Lemma ParseInt_digits (ds : string) :
  ds <> "" -> string_forall strconv.is_digit ds = true ->
  strconv.ParseInt ds 32 =
  if dec_value ds <=? MaxInt32 then (dec_value ds, None)
  else (MaxInt32, Some (NumError "ParseInt" ds ErrRange)).
Proof.
  intros Hne Hd. destruct ds as [|c s]; [contradiction|].
  pose proof Hd as Hd'. simpl in Hd'. apply andb_prop in Hd' as [Hc _].
  assert (Hplus : Ascii.eqb c "+" = false).
  { destruct (Ascii.eqb_spec c "+") as [->|]; [discriminate Hc | reflexivity]. }
  assert (Hminus : Ascii.eqb c "-" = false).
  { destruct (Ascii.eqb_spec c "-") as [->|]; [discriminate Hc | reflexivity]. }
  unfold strconv.ParseInt. rewrite Hplus, Hminus. cbn [orb negb andb].
  unfold strconv.ParseUint.
  rewrite (uint_loop_value _ _ 0 Hd) by (simpl; lia).
  fold (dec_value (String c s)).
  pose proof (dec_acc_ge _ 0 Hd ltac:(lia)) as Hge. fold (dec_value (String c s)) in Hge.
  change (2 ^ 32 - 1) with 4294967295. change (2 ^ (32 - 1)) with 2147483648.
  unfold MaxInt32.
  destruct (Z.leb_spec (dec_value (String c s)) 4294967295).
  - destruct (Z.leb_spec 2147483648 (dec_value (String c s)));
      destruct (Z.leb_spec (dec_value (String c s)) 2147483647); try lia; reflexivity.
  - destruct (Z.leb_spec (dec_value (String c s)) 2147483647); try lia. reflexivity.
Qed.

(** ** The scanner, line by line *)

(** What a round of the loop sends, read off the match. *)
Lemma scan_line_sound (text : string) (e : error) :
  scan_line text = Ret e ->
  exists before prefix f ds sp m rest,
    text = before ++ "[" ++ prefix ++ ":" ++ f ++ "(" ++ ds ++ ")]" ++ sp ++ m ++ rest
    /\ e = ScanError (mkError f (fst (strconv.ParseInt ds 32)) m)
    /\ nth_error (FindStringSubmatch errFormat 3 text) 2 = Some ds
    /\ f <> "" /\ ds <> "" /\ sp <> "" /\ m <> ""
    /\ string_forall not_newline prefix = true
    /\ string_forall not_newline f = true
    /\ string_forall strconv.is_digit ds = true
    /\ string_forall is_space sp = true
    /\ string_forall not_newline m = true.
Proof.
  unfold scan_line, FindStringSubmatch.
  destruct (search errFormat text) as [c|] eqn:E; [|discriminate].
  apply search_sound in E as (before & s0 & -> & E).
  apply errFormat_sound in E
    as (prefix & f & ds & sp & m & rest & -> & H1 & H2 & H3
        & ? & ? & ? & ? & ? & ? & ? & ? & ?).
  cbn [map seq nth_error]. rewrite H1, H2, H3.
  destruct (strconv.ParseInt ds 32) as [n err] eqn:Ep.
  intros Hret; injection Hret as <-.
  exists before, prefix, f, ds, sp, m, rest. rewrite Ep.
  repeat split; (assumption || reflexivity).
Qed.

Lemma scan_line_split (text : string) :
  (FindStringSubmatch errFormat 3 text = [] /\ scan_line text = Panic index_panic)
  \/ (exists whole f ds m,
        FindStringSubmatch errFormat 3 text = [whole; f; ds; m]
        /\ scan_line text
           = Ret (ScanError (mkError f (fst (strconv.ParseInt ds 32)) m))).
Proof.
  unfold scan_line, FindStringSubmatch.
  destruct (search errFormat text) as [c|]; [right | left; split; reflexivity].
  exists (lookup 0 c), (lookup 1 c), (lookup 2 c), (lookup 3 c).
  split; [reflexivity|]. cbn [map seq nth_error].
  now destruct (strconv.ParseInt (lookup 2 c) 32).
Qed.

(** X1: a round of the scanner's loop either finds no match and panics on
    [parts[2]], or sends one [*Error] built from the three groups; the
    index expressions [parts[1]] and [parts[3]] never panic, and the round
    never blocks. *)
Theorem scan_line_cases (text : string) :
  (FindStringSubmatch errFormat 3 text = [] /\ scan_line text = Panic index_panic)
  \/ (exists whole f ds m,
        FindStringSubmatch errFormat 3 text = [whole; f; ds; m]
        /\ scan_line text
           = Ret (ScanError (mkError f (fst (strconv.ParseInt ds 32)) m))).
Proof. exact (scan_line_split text). Qed.

(** X2: every error the scanner sends for a line comes from a text of the
    shape [[prefix:file(digits)] message] inside that line: the file and
    the message are not empty and hold no newline, and at least one white
    space separates the bracket from the message. *)
Theorem scan_line_record_shape (text : string) (e : error) :
  scan_line text = Ret e ->
  exists r before prefix ds sp rest,
    e = ScanError r
    /\ text = before ++ "[" ++ prefix ++ ":" ++ file r ++ "(" ++ ds ++ ")]"
              ++ sp ++ msg r ++ rest
    /\ file r <> "" /\ msg r <> "" /\ ds <> "" /\ sp <> ""
    /\ string_forall not_newline (file r) = true
    /\ string_forall not_newline (msg r) = true
    /\ string_forall strconv.is_digit ds = true
    /\ string_forall is_space sp = true.
Proof.
  intros H. apply scan_line_sound in H
    as (before & prefix & f & ds & sp & m & rest & Ht & -> & _ & ? & ? & ? & ?
        & ? & ? & ? & ? & ?).
  exists (mkError f (fst (strconv.ParseInt ds 32)) m), before, prefix, ds, sp, rest.
  simpl. repeat split; (assumption || reflexivity).
Qed.

Lemma scan_line_record_shape_witness :
  scan_line error_line = Ret (ScanError (mkError "file.cc" 42 "boom"))
  /\ exists r before prefix ds sp rest,
       ScanError (mkError "file.cc" 42 "boom") = ScanError r
       /\ error_line = before ++ "[" ++ prefix ++ ":" ++ file r ++ "(" ++ ds ++ ")]"
                       ++ sp ++ msg r ++ rest
       /\ file r <> "" /\ msg r <> "" /\ ds <> "" /\ sp <> ""
       /\ string_forall not_newline (file r) = true
       /\ string_forall not_newline (msg r) = true
       /\ string_forall strconv.is_digit ds = true
       /\ string_forall is_space sp = true.
Proof.
  split; [reflexivity|].
  apply (scan_line_record_shape error_line). reflexivity.
Defined.

(** X3: the line number of a record is the decimal value of the digits
    between the parentheses, cut off at [MaxInt32]: it is never negative
    and a number too large for 32 bits is recorded as 2147483647, the
    range error being discarded. *)
Theorem scan_line_number (text : string) (r : Error) :
  scan_line text = Ret (ScanError r) ->
  exists ds, nth_error (FindStringSubmatch errFormat 3 text) 2 = Some ds
    /\ line r = Z.min (dec_value ds) MaxInt32
    /\ 0 <= line r <= MaxInt32.
Proof.
  intros H. apply scan_line_sound in H
    as (before & prefix & f & ds & sp & m & rest & _ & Hr & Hnth & _ & Hds & _ & _
        & _ & _ & Hd & _).
  injection Hr as ->. exists ds. split; [exact Hnth|]. simpl.
  rewrite (ParseInt_digits ds Hds Hd).
  pose proof (dec_acc_ge ds 0 Hd ltac:(lia)) as Hge. fold (dec_value ds) in Hge.
  unfold MaxInt32 in *.
  destruct (Z.leb_spec (dec_value ds) 2147483647); simpl; lia.
Qed.

Lemma scan_line_number_witness :
  scan_line "[1:gpu.cc(99999999999)] lost"
  = Ret (ScanError (mkError "gpu.cc" 2147483647 "lost"))
  /\ exists ds,
       nth_error (FindStringSubmatch errFormat 3 "[1:gpu.cc(99999999999)] lost") 2
       = Some ds
       /\ line (mkError "gpu.cc" 2147483647 "lost") = Z.min (dec_value ds) MaxInt32
       /\ 0 <= line (mkError "gpu.cc" 2147483647 "lost") <= MaxInt32.
Proof.
  split; [reflexivity|].
  apply (scan_line_number "[1:gpu.cc(99999999999)] lost"). reflexivity.
Defined.

Lemma string_forall_parts (p : ascii -> bool)
    (before prefix f ds sp m rest : string) :
  string_forall p
    (before ++ "[" ++ prefix ++ ":" ++ f ++ "(" ++ ds ++ ")]" ++ sp ++ m ++ rest) = true ->
  p "["%char = true /\ p ":"%char = true /\ p "("%char = true
  /\ p ")"%char = true /\ p "]"%char = true /\ string_forall p ds = true.
Proof.
  intros H.
  rewrite string_forall_app in H. apply andb_prop in H as [_ H].
  simpl in H. apply andb_prop in H as [H1 H].
  rewrite string_forall_app in H. apply andb_prop in H as [_ H].
  simpl in H. apply andb_prop in H as [H2 H].
  rewrite string_forall_app in H. apply andb_prop in H as [_ H].
  simpl in H. apply andb_prop in H as [H3 H].
  rewrite string_forall_app in H. apply andb_prop in H as [Hds H].
  simpl in H. apply andb_prop in H as [H4 H]. apply andb_prop in H as [H5 _].
  repeat split; assumption.
Qed.

(** X4: a line that lacks one of the characters [[], [:], [(], [)], []],
    or that holds no decimal digit, is not matched by [errFormat]; the
    empty line is such a line.  The scanner panics on it. *)
Theorem unmatched_without_delimiter (text : string) (a : ascii) :
  (In a ["["; ":"; "("; ")"; "]"]%char /\ lacks a text = true)
  \/ string_forall (fun x => negb (strconv.is_digit x)) text = true ->
  FindStringSubmatch errFormat 3 text = [] /\ scan_line text = Panic index_panic.
Proof.
  intros H.
  destruct (scan_line_split text) as [Hno|(whole & f & ds & m & _ & Hs)]; [exact Hno|].
  exfalso. apply scan_line_sound in Hs
    as (before & prefix & f' & ds' & sp & m' & rest & -> & _ & _ & _ & Hds & _ & _
        & _ & _ & Hd & _).
  destruct H as [[Ha Hl]|Hl];
    apply string_forall_parts in Hl as (H1 & H2 & H3 & H4 & H5 & H6).
  - simpl in Ha.
    destruct Ha as [<-|[<-|[<-|[<-|[<-|[]]]]]]; discriminate.
  - destruct ds' as [|d ds']; [contradiction|].
    simpl in Hd, H6. apply andb_prop in Hd as [Hd _]. rewrite Hd in H6.
    discriminate H6.
Qed.

Lemma unmatched_without_delimiter_witness :
  (In "["%char ["["; ":"; "("; ")"; "]"]%char
   /\ lacks "[" "DevTools listening on ws://127.0.0.1:9222/devtools/browser/0a1b" = true)
  /\ FindStringSubmatch errFormat 3
       "DevTools listening on ws://127.0.0.1:9222/devtools/browser/0a1b" = []
  /\ scan_line "DevTools listening on ws://127.0.0.1:9222/devtools/browser/0a1b"
     = Panic index_panic.
Proof.
  assert (H : In "["%char ["["; ":"; "("; ")"; "]"]%char
              /\ lacks "[" "DevTools listening on ws://127.0.0.1:9222/devtools/browser/0a1b"
                 = true) by (split; [left; reflexivity | reflexivity]).
  split; [exact H|].
  apply (unmatched_without_delimiter _ "["%char). left. exact H.
Defined.

Lemma scan_lines_matched (ls : list string) :
  Forall (fun l => FindStringSubmatch errFormat 3 l <> []) ls ->
  exists recs,
    Forall2 (fun l r => scan_line l = Ret (ScanError r)) ls recs
    /\ forall out, scan_lines ls out = ((out ++ map ScanError recs)%list, Ret tt).
Proof.
  induction 1 as [|l ls Hl _ (recs & HF & IH)].
  - exists []. split; [constructor|]. intros out. simpl. now rewrite app_nil_r.
  - destruct (scan_line_split l) as [[Hno _]|(whole & f & ds & m & _ & Hs)];
      [contradiction|].
    exists (mkError f (fst (strconv.ParseInt ds 32)) m :: recs).
    split; [now constructor|].
    intros out. simpl. rewrite Hs, IH, <- app_assoc. reflexivity.
Qed.

Lemma scan_lines_room_matched (room : nat) (ls : list string) (recs : list Error) :
  Forall2 (fun l r => scan_line l = Ret (ScanError r)) ls recs ->
  forall out, (length out <= room)%nat ->
    scan_lines_room room ls out =
    if (length out + length recs <=? room)%nat
    then ((out ++ map ScanError recs)%list, Ret tt)
    else (firstn room (out ++ map ScanError recs), Blocked).
Proof.
  induction 1 as [|l r ls recs Hl _ IH]; intros out Hout; simpl.
  - rewrite Nat.add_0_r, app_nil_r.
    destruct (Nat.leb_spec (length out) room); [reflexivity | lia].
  - rewrite Hl. unfold send.
    destruct (Nat.ltb_spec (length out) room) as [Hlt|Hge].
    + rewrite IH by (rewrite length_app; simpl; lia).
      rewrite length_app, <- app_assoc. simpl.
      replace (length out + 1 + length recs)%nat
        with (length out + S (length recs))%nat by lia.
      reflexivity.
    + destruct (Nat.leb_spec (length out + S (length recs)) room); [lia|].
      assert (Hroom : room = length out) by lia.
      rewrite Hroom, firstn_app, firstn_all, Nat.sub_diag. simpl.
      now rewrite app_nil_r.
Qed.

(** X5: when every line of the stream matches, the scanner sends one
    [*Error] for each line, in the order of the lines, and after them the
    read error the stream ended with, if there is one; each send needs
    room on the channel.  When there is room for all of them, the scanner
    returns (the method of the earlier revision then closes the pipe), and
    this is the run [Scan] describes.  When there is not, as with two
    matching lines and a one-slot channel nobody reads, the scanner blocks
    for ever at the first send without room, having sent exactly the
    earlier ones, and the pipe of the earlier revision is not closed. *)
Theorem Scan_all_matched_room (room : nat) (ls : list string) (err : option error) :
  Forall (fun l => FindStringSubmatch errFormat 3 l <> []) ls ->
  exists recs,
    Forall2 (fun l r => scan_line l = Ret (ScanError r)) ls recs
    /\ ((length (map ScanError recs ++ err_list err) <= room)%nat ->
        Scan_room room (mkReader ls err)
        = ((map ScanError recs ++ err_list err)%list, Ret tt)
        /\ Legacy_Scan_room room (mkReader ls err)
           = ((map ScanError recs ++ err_list err)%list, Ret tt, true)
        /\ Scan (mkReader ls err)
           = ((map ScanError recs ++ err_list err)%list, Ret tt))
    /\ ((room < length (map ScanError recs ++ err_list err))%nat ->
        Scan_room room (mkReader ls err)
        = (firstn room (map ScanError recs ++ err_list err), Blocked)
        /\ Legacy_Scan_room room (mkReader ls err)
           = (firstn room (map ScanError recs ++ err_list err), Blocked, false)).
Proof.
  intros H. destruct (scan_lines_matched ls H) as (recs & HF & Hs).
  exists recs. split; [exact HF|].
  pose proof (scan_lines_room_matched room ls recs HF [] (Nat.le_0_l room)) as Hr.
  cbn [length Nat.add app] in Hr.
  assert (Hscan : Scan (mkReader ls err)
                  = ((map ScanError recs ++ err_list err)%list, Ret tt)).
  { unfold Scan. simpl. rewrite Hs. simpl.
    destruct err; simpl; now rewrite ?app_nil_r. }
  unfold Legacy_Scan_room, Scan_room. cbn [lines read_err]. rewrite Hr.
  rewrite length_app, length_map.
  destruct (Nat.leb_spec (length recs) room) as [Hle|Hgt].
  - destruct err as [e|]; cbn [err_list length].
    + unfold send. rewrite length_map.
      destruct (Nat.ltb_spec (length recs) room) as [Hlt|Hge].
      * split; [intros _; repeat split; assumption | lia].
      * split; [lia|]. intros _.
        assert (Hfirst : firstn room (map ScanError recs ++ [e])
                         = map ScanError recs).
        { assert (Hroom : room = length (map ScanError recs))
            by (rewrite length_map; lia).
          rewrite Hroom, firstn_app, firstn_all, Nat.sub_diag. simpl.
          apply app_nil_r. }
        rewrite Hfirst. split; reflexivity.
    + rewrite app_nil_r in *. split; [intros _; repeat split; assumption | lia].
  - split; [destruct err; cbn [err_list length]; lia|]. intros _.
    rewrite firstn_app, length_map.
    replace (room - length recs)%nat with 0%nat by lia.
    simpl. rewrite app_nil_r. split; reflexivity.
Qed.

Lemma Scan_all_matched_room_witness :
  Forall (fun l => FindStringSubmatch errFormat 3 l <> [])
    [error_line; "[2:a.cc(7)] x"]
  /\ exists recs,
       Forall2 (fun l r => scan_line l = Ret (ScanError r))
         [error_line; "[2:a.cc(7)] x"] recs
       /\ (1 < length (map ScanError recs ++ err_list None))%nat
       /\ Scan_room 1 (mkReader [error_line; "[2:a.cc(7)] x"] None)
          = (firstn 1 (map ScanError recs ++ err_list None), Blocked)
       /\ Legacy_Scan_room 1 (mkReader [error_line; "[2:a.cc(7)] x"] None)
          = (firstn 1 (map ScanError recs ++ err_list None), Blocked, false).
Proof.
  assert (H : Forall (fun l => FindStringSubmatch errFormat 3 l <> [])
                [error_line; "[2:a.cc(7)] x"])
    by (repeat constructor; discriminate).
  split; [exact H|].
  destruct (Scan_all_matched_room 1 _ None H) as (recs & HF & _ & Hblock).
  exists recs. split; [exact HF|].
  assert (Hlen : (1 < length (map ScanError recs ++ err_list None))%nat).
  { rewrite length_app, length_map. apply Forall2_length in HF.
    simpl in HF |- *. lia. }
  split; [exact Hlen|]. exact (Hblock Hlen).
Defined.

(** ** The flag lookup *)

(** X6: [Flag(key)] reports the value of the first flag with that key and
    ignores later flags of the same key; it reports no value exactly when
    no flag has the key. *)
Theorem chromium_Flag_first (c : chromium) (key : string) :
  (forall v, chromium_Flag c key = Some v <->
     exists pre flag post,
       flags c = (pre ++ flag :: post)%list /\ Key flag = key /\ Value flag = v
       /\ Forall (fun g => Key g <> key) pre)
  /\ (chromium_Flag c key = None <-> Forall (fun g => Key g <> key) (flags c)).
Proof.
  unfold chromium_Flag. generalize (flags c) as fs. intros fs.
  assert (Hnone : forall l, find_flag key l = None <-> Forall (fun g => Key g <> key) l).
  { induction l as [|g l IH]; simpl.
    - split; [constructor | reflexivity].
    - destruct (String.eqb_spec (Key g) key) as [E|E].
      + split; [discriminate|]. intros H. inversion H; contradiction.
      + rewrite IH. split; [now constructor | intros H; now inversion H]. }
  split; [|apply Hnone].
  induction fs as [|g fs IH]; intros v; simpl.
  - split; [discriminate|]. intros (pre & f & post & H & _). now destruct pre.
  - destruct (String.eqb_spec (Key g) key) as [E|E].
    + split.
      * intros H; injection H as <-. exists [], g, fs. repeat split; auto.
      * intros (pre & f & post & H & Hk & Hv & Hpre).
        destruct pre as [|g' pre]; simpl in H; injection H as Hg Hfs; subst.
        -- reflexivity.
        -- inversion Hpre; contradiction.
    + rewrite IH. split.
      * intros (pre & f & post & Hfs & Hk & Hv & Hpre).
        exists (g :: pre), f, post. rewrite Hfs. repeat split; auto.
      * intros (pre & f & post & H & Hk & Hv & Hpre).
        destruct pre as [|g' pre]; simpl in H; injection H as Hg Hfs; subst.
        -- contradiction.
        -- exists pre, f, post. inversion Hpre. repeat split; auto.
Qed.

Lemma chromium_Flag_first_witness :
  chromium_Flag (New "chrome" [Size 800 600; Port 9222; Port 9333]) "remote-debugging-port"
  = Some (VUint16 9222)
  /\ (chromium_Flag fresh "user-data-dir" = None
      /\ Forall (fun g => Key g <> "user-data-dir") (flags fresh)).
Proof.
  destruct (chromium_Flag_first (New "chrome" [Size 800 600; Port 9222; Port 9333])
              "remote-debugging-port") as [Hsome _].
  destruct (chromium_Flag_first fresh "user-data-dir") as [_ Hnone].
  split.
  - apply Hsome. exists [Size 800 600], (Port 9222), [Port 9333].
    repeat split. repeat constructor. discriminate.
  - split; [reflexivity|]. apply Hnone. reflexivity.
Defined.

(** ** Start: the set-up *)

(** The record and the operating system after a [Start] whose set-up
    succeeds, whatever the race brings. *)
Lemma Start_setup_state (env : StartEnv) (c : chromium) (os : OS) :
  setup_ok env c ->
  exists c' os' k,
    chromium_Start env c os = (race_loop (race env), c', os')
    /\ cmd c' = Some k /\ Process k = Some (fst (cmd_Start env))
    /\ running os' = fst (cmd_Start env) :: running os
    /\ dirs os' = match find_flag "user-data-dir" (flags c) with
                  | Some _ => dirs os
                  | None => fst (TempDir env) :: dirs os
                  end.
Proof.
  intros (Hc & Hd & Hp & Hw & Hs).
  unfold chromium_Start, chromium_Flag. rewrite Hc. cbn [flags set_flags].
  rewrite find_flag_app.
  change (find_flag "user-data-dir" mandatory) with (@None any).
  assert (L : forall x o, exists c' os' k,
            launch env x o = (race_loop (race env), c', os')
            /\ cmd c' = Some k /\ Process k = Some (fst (cmd_Start env))
            /\ running os' = fst (cmd_Start env) :: running o /\ dirs os' = dirs o).
  { intros x o. unfold launch. rewrite Hp, Hw.
    destruct (cmd_Start env) as [pid e]; simpl in Hs; subst e.
    do 3 eexists. split; [reflexivity|]. repeat split. }
  destruct (find_flag "user-data-dir" (flags c)) as [v|].
  - destruct v; try contradiction. apply L.
  - destruct (TempDir env) as [d e]; simpl in Hd; subst e.
    destruct (L (defaults
                   (set_data d
                      (set_flags
                         (flags (set_flags (flags c ++ mandatory) c) ++
                          [mkFlag "user-data-dir" (VString d)])
                         (set_flags (flags c ++ mandatory) c)))) (mkdir d os))
      as (c' & os' & k & H1 & H2 & H3 & H4 & H5).
    exists c', os', k. repeat split; assumption.
Qed.

Lemma launch_os (env : StartEnv) (c : chromium) (os : OS) :
  forall r c' os', launch env c os = (r, c', os') -> dirs os' = dirs os.
Proof.
  unfold launch. intros r c' os'.
  destruct (StderrPipe env); [|destruct (watcher_Add env);
    [|destruct (cmd_Start env) as [pid [e|]]]];
    intros H; injection H as <- <- <-; reflexivity.
Qed.

Lemma Start_supplied (env : StartEnv) (c : chromium) (os : OS) (d : string) :
  cmd c = None ->
  find_flag "user-data-dir" (flags c) = Some (VString d) ->
  chromium_Start env c os
  = launch env (defaults (mkChromium (path c) d (flags c ++ mandatory) None)) os.
Proof.
  intros Hc Hf. unfold chromium_Start, chromium_Flag. rewrite Hc.
  cbn [flags set_flags]. rewrite find_flag_app, Hf.
  unfold set_data, set_flags. cbn [path data flags cmd]. now rewrite Hc.
Qed.

(** X7: when the record has a [user-data-dir] flag with a string value,
    [Start] takes that directory as data directory, creates no temporary
    directory and adds no second [user-data-dir] flag; it always gets as
    far as building the command. *)
Theorem Start_uses_supplied_dir (env : StartEnv) (c : chromium) (os : OS)
    (d : string) (r : outcome (Z * option error)) (c' : chromium) (os' : OS) :
  cmd c = None ->
  find_flag "user-data-dir" (flags c) = Some (VString d) ->
  chromium_Start env c os = (r, c', os') ->
  data c' = d /\ dirs os' = dirs os
  /\ (exists k, cmd c' = Some k
                /\ Args k = path c :: map Flag_String (flags c')
                /\ In ("--user-data-dir=" ++ d) (Args k))
  /\ find_flag "user-data-dir" (injected env (flags c)) = None.
Proof.
  intros Hc Hf Hs. rewrite (Start_supplied env c os d Hc Hf) in Hs.
  pose proof (launch_os _ _ _ _ _ _ Hs) as Hdirs.
  apply launch_args in Hs as (Hp & Hd & Hfl & pr & Hk).
  destruct (defaults_flags (mkChromium (path c) d (flags c ++ mandatory) None))
    as (Dp & Dd & _ & Df).
  rewrite Hd, Dd. split; [reflexivity|]. split; [exact Hdirs|]. split.
  - eexists. split; [exact Hk|]. cbn [Args]. rewrite Dp, Hfl. cbn [path].
    split; [reflexivity|]. right. rewrite Df. cbn [flags].
    rewrite !map_app. apply in_or_app. left. apply in_or_app. left.
    clear - Hf. induction (flags c) as [|g fs IH]; [discriminate|].
    simpl in Hf. destruct (String.eqb_spec (Key g) "user-data-dir") as [E|E].
    + injection Hf as Hv. left. unfold Flag_String. rewrite Hv, E. reflexivity.
    + right. now apply IH.
  - unfold injected. rewrite Hf. simpl.
    destruct (find_flag "remote-debugging-address" (flags c));
      destruct (find_flag "remote-debugging-port" (flags c)); reflexivity.
Qed.

Lemma Start_uses_supplied_dir_witness :
  cmd with_profile = None
  /\ find_flag "user-data-dir" (flags with_profile) = Some (VString "/home/u/profile")
  /\ exists r c' os',
       chromium_Start profile_env with_profile os0 = (r, c', os')
       /\ data c' = "/home/u/profile" /\ dirs os' = dirs os0.
Proof.
  split; [reflexivity|]. split; [reflexivity|].
  do 3 eexists. split; [reflexivity|].
  destruct (Start_uses_supplied_dir profile_env with_profile os0 "/home/u/profile"
              _ _ _ eq_refl eq_refl eq_refl) as (Hd & Hdirs & _).
  split; assumption.
Defined.

(** X8: when the first [user-data-dir] flag holds a value that is no
    string, the type assertion in [Start] panics: no command is built, no
    directory is created, and the three mandatory flags stay appended to
    the record. *)
Theorem Start_data_dir_not_string (env : StartEnv) (c : chromium) (os : OS) (v : any) :
  cmd c = None ->
  find_flag "user-data-dir" (flags c) = Some v ->
  (forall d, v <> VString d) ->
  exists text,
    chromium_Start env c os
    = (Panic text, mkChromium (path c) (data c) (flags c ++ mandatory) None, os).
Proof.
  intros Hc Hf Hv. unfold chromium_Start, chromium_Flag. rewrite Hc.
  cbn [flags set_flags]. rewrite find_flag_app, Hf.
  unfold set_flags. rewrite Hc.
  destruct v; try (eexists; reflexivity). now contradiction (Hv s).
Qed.

Lemma Start_data_dir_not_string_witness :
  cmd bad_profile = None
  /\ find_flag "user-data-dir" (flags bad_profile) = Some (VInt 7)
  /\ exists text,
       chromium_Start first_env bad_profile os0
       = (Panic text,
          mkChromium "chrome" "" ([mkFlag "user-data-dir" (VInt 7)] ++ mandatory) None,
          os0).
Proof.
  split; [reflexivity|]. split; [reflexivity|].
  apply (Start_data_dir_not_string first_env bad_profile os0 (VInt 7));
    [reflexivity | reflexivity | discriminate].
Defined.

(** X9: when no [user-data-dir] flag is present and the temporary
    directory cannot be created, [Start] returns that error with no
    command built and nothing created, but the record keeps the three
    mandatory flags [Start] had already appended. *)
Theorem Start_TempDir_fails (env : StartEnv) (c : chromium) (os : OS) (e : error) :
  cmd c = None ->
  find_flag "user-data-dir" (flags c) = None ->
  snd (TempDir env) = Some e ->
  chromium_Start env c os
  = (Ret (0, Some e), mkChromium (path c) (data c) (flags c ++ mandatory) None, os).
Proof.
  intros Hc Hf He. unfold chromium_Start, chromium_Flag. rewrite Hc.
  cbn [flags set_flags]. rewrite find_flag_app, Hf.
  change (find_flag "user-data-dir" mandatory) with (@None any).
  destruct (TempDir env) as [d e']. simpl in He. subst e'.
  unfold set_flags. now rewrite Hc.
Qed.

Lemma Start_TempDir_fails_witness :
  cmd fresh = None /\ find_flag "user-data-dir" (flags fresh) = None
  /\ chromium_Start tempdir_fails fresh os0
     = (Ret (0, Some (OSError "mkdir /tmp/chromium-1: no space left on device")),
        mkChromium "chrome" "" mandatory None, os0).
Proof.
  split; [reflexivity|]. split; [reflexivity|].
  apply (Start_TempDir_fails tempdir_fails fresh os0); reflexivity.
Defined.

(** ** Start: the race *)

Lemma race_loop_ignored (evs : list Select) :
  Forall ignored evs -> race_loop evs = Blocked.
Proof.
  intros H. rewrite <- (app_nil_r evs). now rewrite race_loop_skip.
Qed.

(** X10: [Start] has no timeout.  When its set-up succeeds and the only
    cases that ever become ready are file-system events for names other
    than [DevToolsActivePort], [Start] never returns, while the child
    process it started runs and its handle is on the record. *)
Theorem Start_blocks_without_marker (env : StartEnv) (c : chromium) (os : OS) :
  setup_ok env c -> Forall ignored (race env) ->
  exists c' os' k,
    chromium_Start env c os = (Blocked, c', os')
    /\ cmd c' = Some k /\ Process k = Some (fst (cmd_Start env))
    /\ In (fst (cmd_Start env)) (running os').
Proof.
  intros Hok Hign.
  destruct (Start_setup_state env c os Hok) as (c' & os' & k & Hs & Hk & Hp & Hr & _).
  rewrite (race_loop_ignored _ Hign) in Hs.
  exists c', os', k. repeat split; try assumption. rewrite Hr. now left.
Qed.

Lemma Start_blocks_without_marker_witness :
  setup_ok silent_env fresh /\ Forall ignored (race silent_env)
  /\ exists c' os' k,
       chromium_Start silent_env fresh os0 = (Blocked, c', os')
       /\ cmd c' = Some k /\ Process k = Some 100 /\ In 100 (running os').
Proof.
  assert (H1 : setup_ok silent_env fresh) by (repeat split).
  assert (H2 : Forall ignored (race silent_env))
    by (constructor; [reflexivity | constructor]).
  split; [exact H1|]. split; [exact H2|].
  exact (Start_blocks_without_marker silent_env fresh os0 H1 H2).
Defined.

(** X11: the first case that is not an event for another name decides the
    race.  When it is a watcher error, an error on [errs], or a marker
    event whose file cannot be read, [Start] returns that error with port
    0, whatever cases would follow (a readable marker file included), and
    the child process it started is left running with its handle on the
    record. *)
Theorem Start_first_case_decides (env : StartEnv) (c : chromium) (os : OS)
    (pre post : list Select) (ev : Select) (e : error) :
  setup_ok env c -> Forall ignored pre ->
  race env = (pre ++ ev :: post)%list -> aborts ev e ->
  exists c' os' k,
    chromium_Start env c os = (Ret (0, Some e), c', os')
    /\ cmd c' = Some k /\ Process k = Some (fst (cmd_Start env))
    /\ In (fst (cmd_Start env)) (running os').
Proof.
  intros Hok Hign Hrace Hab.
  destruct (Start_setup_state env c os Hok) as (c' & os' & k & Hs & Hk & Hp & Hr & _).
  rewrite Hrace, (race_loop_skip _ _ Hign) in Hs.
  assert (Hev : race_loop (ev :: post) = Ret (0, Some e)).
  { destruct ev as [name p [f [x|]]|x|x]; simpl in Hab |- *.
    - destruct Hab as [-> ->]. reflexivity.
    - contradiction.
    - now subst.
    - now subst. }
  rewrite Hev in Hs.
  exists c', os', k. repeat split; try assumption. rewrite Hr. now left.
Qed.

Lemma Start_first_case_decides_witness :
  (setup_ok error_first_env fresh
   /\ Forall ignored [other_event "/tmp/chromium-1"]
   /\ aborts (Errs (ScanError (mkError "gpu_init.cc" 7 "boom")))
        (ScanError (mkError "gpu_init.cc" 7 "boom")))
  /\ exists c' os' k,
       chromium_Start error_first_env fresh os0
       = (Ret (0, Some (ScanError (mkError "gpu_init.cc" 7 "boom"))), c', os')
       /\ cmd c' = Some k /\ Process k = Some 100 /\ In 100 (running os').
Proof.
  assert (H1 : setup_ok error_first_env fresh) by (repeat split).
  assert (H2 : Forall ignored [other_event "/tmp/chromium-1"])
    by (constructor; [reflexivity | constructor]).
  split; [repeat split; assumption|].
  exact (Start_first_case_decides error_first_env fresh os0
           [other_event "/tmp/chromium-1"] [marker_event "/tmp/chromium-1" "9222"]
           (Errs (ScanError (mkError "gpu_init.cc" 7 "boom")))
           (ScanError (mkError "gpu_init.cc" 7 "boom")) H1 H2 eq_refl eq_refl).
Defined.

(** ** Start, then Stop or Wait *)

Lemma filter_dirs_notin (d : string) (l : list string) :
  ~ In d l -> filter (fun x => negb (String.eqb x d)) l = l.
Proof.
  induction l as [|x l IH]; simpl; intros H; [reflexivity|].
  destruct (String.eqb_spec x d) as [E|E]; simpl.
  - exfalso. apply H. now left.
  - rewrite IH; [reflexivity|]. intros Hin. apply H. now right.
Qed.

Lemma filter_pids_notin (pid : Z) (l : list Z) :
  ~ In pid l -> filter (fun x => negb (x =? pid)) l = l.
Proof.
  induction l as [|x l IH]; simpl; intros H; [reflexivity|].
  destruct (Z.eqb_spec x pid) as [E|E]; simpl.
  - exfalso. apply H. now left.
  - rewrite IH; [reflexivity|]. intros Hin. apply H. now right.
Qed.

Lemma launch_defaults_shape (env : StartEnv) (x : chromium) (o : OS) :
  forall r c' os', launch env (defaults x) o = (r, c', os') ->
    path c' = path x /\ exists more, flags c' = (flags x ++ more)%list.
Proof.
  intros r c' os' H. apply launch_args in H as (Hp & _ & Hf & _).
  destruct (defaults_flags x) as (Dp & _ & _ & Df).
  rewrite Hp, Dp, Hf, Df. split; [reflexivity|]. eexists. reflexivity.
Qed.

(** [Start] never changes the path, and the flags it leaves begin with the
    flags it found; once past the handle check, the mandatory flags
    follow them. *)
Lemma Start_shape (env : StartEnv) (c : chromium) (os : OS) :
  forall r c' os', chromium_Start env c os = (r, c', os') ->
    path c' = path c
    /\ exists extra, flags c' = (flags c ++ extra)%list
         /\ (cmd c = None -> exists more, extra = (mandatory ++ more)%list).
Proof.
  intros r c' os'. unfold chromium_Start, chromium_Flag.
  destruct (cmd c) as [k|] eqn:Hc.
  - intros H; injection H as <- <- <-. split; [reflexivity|].
    exists []. split; [now rewrite app_nil_r | discriminate].
  - cbn [flags set_flags].
    destruct (find_flag "user-data-dir" (flags c ++ mandatory)) as [v|].
    + destruct v;
        try (intros H; injection H as <- <- <-; split; [reflexivity|];
             exists mandatory; split; [reflexivity|]; intros _; exists [];
             now rewrite app_nil_r).
      intros H. apply launch_defaults_shape in H as (Hp & more & Hf).
      cbn [path flags set_data set_flags] in Hp, Hf.
      split; [exact Hp|]. exists (mandatory ++ more)%list.
      split; [now rewrite Hf, app_assoc|]. intros _. now exists more.
    + destruct (TempDir env) as [d [e|]].
      * intros H; injection H as <- <- <-; split; [reflexivity|].
        exists mandatory; split; [reflexivity|]; intros _; exists [].
        now rewrite app_nil_r.
      * intros H. apply launch_defaults_shape in H as (Hp & more & Hf).
        cbn [path flags set_data set_flags] in Hp, Hf.
        split; [exact Hp|].
        exists (mandatory ++ [mkFlag "user-data-dir" (VString d)] ++ more)%list.
        split; [now rewrite Hf, <- !app_assoc|]. intros _. now eexists.
Qed.

(** X12: a [Start] whose set-up succeeds on a record without a
    [user-data-dir] flag creates the temporary directory and starts the
    child; a [Stop] whose kill succeeds then removes exactly what [Start]
    added: the directories and the running processes are again the ones
    before [Start], the handle and the data-directory field are empty, and
    the flags [Start] appended stay. *)
Theorem Start_Stop_restores (env : StartEnv) (c : chromium) (os : OS)
    (r : outcome (Z * option error)) (c' : chromium) (os' : OS) :
  setup_ok env c ->
  find_flag "user-data-dir" (flags c) = None ->
  fst (TempDir env) <> "" ->
  ~ In (fst (TempDir env)) (dirs os) ->
  ~ In (fst (cmd_Start env)) (running os) ->
  chromium_Start env c os = (r, c', os') ->
  dirs os' = fst (TempDir env) :: dirs os
  /\ running os' = fst (cmd_Start env) :: running os
  /\ chromium_Stop None c' os' = (Ret None, mkChromium (path c) "" (flags c') None, os).
Proof.
  intros Hok Hf Hne Hd Hp Hs.
  destruct (Start_setup_state env c os Hok) as (c1 & os1 & k & Hs1 & Hk & Hpr & Hr & Hdirs).
  rewrite Hs in Hs1. injection Hs1 as -> <- <-.
  rewrite Hf in Hdirs.
  destruct (Start_flags env c os _ c' os' k (proj1 Hok) Hs Hk) as (_ & Hpath & Hargs & Hdata).
  rewrite Hf in Hdata.
  split; [exact Hdirs|]. split; [exact Hr|].
  unfold chromium_Stop, chromium_Cleanup. rewrite Hk, Hpr, Hdata.
  destruct (String.eqb_spec (fst (TempDir env)) "") as [E|_]; [contradiction|].
  unfold RemoveAll, reap, set_data, set_cmd. cbn [dirs running path flags data cmd].
  rewrite Hdirs, Hr. simpl.
  rewrite String.eqb_refl, Z.eqb_refl. simpl.
  rewrite (filter_dirs_notin _ _ Hd), (filter_pids_notin _ _ Hp).
  rewrite (proj1 (Start_shape env c os _ _ _ Hs)). destruct os. reflexivity.
Qed.

Lemma Start_Stop_restores_witness :
  (setup_ok first_env fresh /\ find_flag "user-data-dir" (flags fresh) = None
   /\ fst (TempDir first_env) <> "" /\ ~ In (fst (TempDir first_env)) (dirs profile_os)
   /\ ~ In (fst (cmd_Start first_env)) (running profile_os))
  /\ exists r c' os',
       chromium_Start first_env fresh profile_os = (r, c', os')
       /\ dirs os' = "/tmp/chromium-1" :: dirs profile_os
       /\ chromium_Stop None c' os'
          = (Ret None, mkChromium "chrome" "" (flags c') None, profile_os).
Proof.
  assert (H1 : setup_ok first_env fresh) by (repeat split).
  assert (H2 : fst (TempDir first_env) <> "") by discriminate.
  assert (H3 : ~ In (fst (TempDir first_env)) (dirs profile_os))
    by (simpl; intros [H|[H|[]]]; discriminate H).
  assert (H4 : ~ In (fst (cmd_Start first_env)) (running profile_os)) by (intros []).
  split; [repeat split; assumption|].
  do 3 eexists. split; [reflexivity|].
  destruct (Start_Stop_restores first_env fresh profile_os _ _ _ H1 eq_refl H2 H3 H4
              eq_refl) as (Hd & _ & Hs).
  split; [exact Hd | exact Hs].
Defined.

(** X13: [Stop] removes the data directory also when the caller supplied
    it: after a [Start] on a record whose [user-data-dir] flag names the
    directory [d], any [Stop] leaves no directory [d], whether or not the
    kill succeeds. *)
Theorem Stop_removes_supplied_dir (env : StartEnv) (c : chromium) (os : OS)
    (d : string) (r : outcome (Z * option error)) (c' : chromium) (os' : OS)
    (kill : option error) :
  cmd c = None ->
  find_flag "user-data-dir" (flags c) = Some (VString d) ->
  d <> "" ->
  chromium_Start env c os = (r, c', os') ->
  (In d (dirs os) -> In d (dirs os'))
  /\ ~ In d (dirs (snd (chromium_Stop kill c' os')))
  /\ data (snd (fst (chromium_Stop kill c' os'))) = ""
  /\ cmd (snd (fst (chromium_Stop kill c' os'))) = None.
Proof.
  intros Hc Hf Hne Hs. rewrite (Start_supplied env c os d Hc Hf) in Hs.
  pose proof (launch_os _ _ _ _ _ _ Hs) as Hdirs.
  apply launch_args in Hs as (_ & Hd & _ & pr & Hk).
  destruct (defaults_flags (mkChromium (path c) d (flags c ++ mandatory) None))
    as (_ & Dd & _ & _).
  rewrite Dd in Hd. cbn [data] in Hd.
  split; [now rewrite Hdirs|].
  unfold chromium_Stop, chromium_Cleanup. rewrite Hk, Hd. cbn [Process].
  destruct (String.eqb_spec d "") as [E|_]; [contradiction|].
  destruct pr as [pid|]; [destruct kill as [err|]|]; cbn [snd fst];
    (split; [apply RemoveAll_gone | split; reflexivity]).
Qed.

Lemma Stop_removes_supplied_dir_witness :
  (cmd with_profile = None
   /\ find_flag "user-data-dir" (flags with_profile) = Some (VString "/home/u/profile")
   /\ "/home/u/profile" <> "" /\ In "/home/u/profile" (dirs profile_os))
  /\ exists r c' os',
       chromium_Start profile_env with_profile profile_os = (r, c', os')
       /\ In "/home/u/profile" (dirs os')
       /\ ~ In "/home/u/profile" (dirs (snd (chromium_Stop None c' os'))).
Proof.
  split; [repeat split; [discriminate | now left]|].
  do 3 eexists. split; [reflexivity|].
  destruct (Stop_removes_supplied_dir profile_env with_profile profile_os
              "/home/u/profile" _ _ _ None eq_refl eq_refl ltac:(discriminate) eq_refl)
    as (Hin & Hgone & _).
  split; [apply Hin; now left | exact Hgone].
Defined.

(** X14: [Wait] on a record with a started process does nothing while the
    process never exits; once the process has exited it returns what
    [cmd.Wait] reports, error or not, with the handle and the
    data-directory field cleared, the data directory removed and the
    process gone.  On a command that was built but never started it
    returns the error of [cmd.Wait] and runs the same cleanup. *)
Theorem Wait_outcomes (exit : option (option error)) (c : chromium) (os : OS) (k : Cmd) :
  cmd c = Some k ->
  (forall pid, Process k = Some pid -> exit = None ->
     chromium_Wait exit c os = (Blocked, c, os))
  /\ (forall pid err, Process k = Some pid -> exit = Some err ->
        exists os', chromium_Wait exit c os
                    = (Ret err, mkChromium (path c) "" (flags c) None, os')
          /\ ~ In pid (running os')
          /\ (data c <> "" -> ~ In (data c) (dirs os'))
          /\ (data c = "" -> dirs os' = dirs os))
  /\ (Process k = None ->
        exists e os', chromium_Wait exit c os
                      = (Ret (Some e), mkChromium (path c) "" (flags c) None, os')
          /\ running os' = running os
          /\ (data c <> "" -> ~ In (data c) (dirs os'))).
Proof.
  intros Hk. unfold chromium_Wait, chromium_Cleanup. rewrite Hk.
  split; [|split].
  - intros pid Hp ->. now rewrite Hp.
  - intros pid err Hp ->. rewrite Hp. eexists. split; [reflexivity|].
    destruct (String.eqb_spec (data c) "") as [E|E]; simpl.
    + split; [|split; [contradiction | reflexivity]].
      rewrite filter_In. intros [_ H]. now rewrite Z.eqb_refl in H.
    + split; [|split; [intros _; apply (RemoveAll_gone (data c) (reap pid os))
                      | contradiction]].
      rewrite filter_In. intros [_ H]. now rewrite Z.eqb_refl in H.
  - intros Hp. rewrite Hp. do 2 eexists. split; [reflexivity|].
    destruct (String.eqb_spec (data c) "") as [E|E]; simpl.
    + split; [reflexivity | contradiction].
    + split; [reflexivity | intros _; apply (RemoveAll_gone (data c) os)].
Qed.

Lemma Wait_outcomes_witness :
  exists k, cmd running1 = Some k /\ Process k = Some 100
  /\ chromium_Wait None running1 os_running = (Blocked, running1, os_running)
  /\ exists os',
       chromium_Wait (Some (Some (OSError "exit status 1"))) running1 os_running
       = (Ret (Some (OSError "exit status 1")),
          mkChromium "chrome" "" (flags running1) None, os')
       /\ ~ In 100 (running os') /\ ~ In "/tmp/chromium-1" (dirs os').
Proof.
  eexists. split; [reflexivity|]. split; [reflexivity|].
  destruct (Wait_outcomes None running1 os_running _ eq_refl) as (Hb & _ & _).
  destruct (Wait_outcomes (Some (Some (OSError "exit status 1"))) running1 os_running
              _ eq_refl) as (_ & He & _).
  split; [exact (Hb 100 eq_refl eq_refl)|].
  destruct (He 100 (Some (OSError "exit status 1")) eq_refl eq_refl)
    as (os' & Hw & Hr & Hd & _).
  exists os'. split; [exact Hw|]. split; [exact Hr|]. apply Hd. discriminate.
Defined.

(** X15: after [Stop] has run on a record with a handle, however the kill
    ended, the record has no handle: a further [Stop] or [Wait] returns
    [ErrProcessNotRunning] and changes nothing. *)
Theorem Stop_then_not_running (kill : option error) (c : chromium) (os : OS) (k : Cmd)
    (r : outcome (option error)) (c' : chromium) (os' : OS) :
  cmd c = Some k ->
  chromium_Stop kill c os = (r, c', os') ->
  cmd c' = None
  /\ (forall kill', chromium_Stop kill' c' os'
                    = (Ret (Some ErrProcessNotRunning), c', os'))
  /\ (forall exit, chromium_Wait exit c' os'
                   = (Ret (Some ErrProcessNotRunning), c', os')).
Proof.
  intros Hk. unfold chromium_Stop at 1. unfold chromium_Cleanup. rewrite Hk.
  assert (H : forall x o, cmd x = None ->
            (forall kill', chromium_Stop kill' x o = (Ret (Some ErrProcessNotRunning), x, o))
            /\ (forall exit, chromium_Wait exit x o
                             = (Ret (Some ErrProcessNotRunning), x, o))).
  { intros x o Hx. unfold chromium_Stop, chromium_Wait. now rewrite Hx. }
  destruct (Process k) as [pid|]; [destruct kill as [err|]|];
    intros E; injection E as <- <- <-; (split; [reflexivity | now apply H]).
Qed.

Lemma Stop_then_not_running_witness :
  exists k r c' os',
    cmd running1 = Some k
    /\ chromium_Stop kill_error running1 os_running = (r, c', os')
    /\ chromium_Stop None c' os' = (Ret (Some ErrProcessNotRunning), c', os')
    /\ chromium_Wait (Some None) c' os' = (Ret (Some ErrProcessNotRunning), c', os').
Proof.
  do 4 eexists. split; [reflexivity|]. split; [reflexivity|].
  destruct (Stop_then_not_running kill_error running1 os_running _ _ _ _ eq_refl eq_refl)
    as (_ & Hs & Hw).
  split; [apply Hs | apply Hw].
Defined.

(** ** The flags over the life of a record *)

(** X16: no operation changes the path of the binary or removes a flag.
    [Stop] and [Wait] leave the flags as they are; [Start] keeps the flags
    it finds as a prefix and, whenever it gets past the handle check,
    appends at least the three mandatory flags, on every way out (an error
    of the set-up and the panic included). *)
Theorem flags_only_grow (c : chromium) (os : OS) :
  (forall env r c' os', chromium_Start env c os = (r, c', os') ->
     path c' = path c
     /\ exists extra, flags c' = (flags c ++ extra)%list
          /\ (cmd c = None -> exists more, extra = (mandatory ++ more)%list))
  /\ (forall kill r c' os', chromium_Stop kill c os = (r, c', os') ->
        path c' = path c /\ flags c' = flags c)
  /\ (forall exit r c' os', chromium_Wait exit c os = (r, c', os') ->
        path c' = path c /\ flags c' = flags c).
Proof.
  split; [intros env; apply Start_shape|]. split.
  - intros kill r c' os'. unfold chromium_Stop, chromium_Cleanup.
    destruct (cmd c) as [k|]; [|intros H; injection H as <- <- <-; now split].
    destruct (Process k) as [pid|]; [destruct kill as [err|]|];
      intros H; injection H as <- <- <-; now split.
  - intros exit r c' os'. unfold chromium_Wait, chromium_Cleanup.
    destruct (cmd c) as [k|]; [|intros H; injection H as <- <- <-; now split].
    destruct (Process k) as [pid|]; [destruct exit as [err|]|];
      intros H; injection H as <- <- <-; now split.
Qed.

Lemma flags_only_grow_witness :
  cmd fresh = None
  /\ exists r c' os',
       chromium_Start tempdir_fails fresh os0 = (r, c', os')
       /\ path c' = path fresh
       /\ exists extra, flags c' = (flags fresh ++ extra)%list
            /\ exists more, extra = (mandatory ++ more)%list.
Proof.
  split; [reflexivity|]. do 3 eexists. split; [reflexivity|].
  destruct (proj1 (flags_only_grow fresh os0) tempdir_fails _ _ _ eq_refl)
    as (Hp & extra & Hf & Hm).
  split; [exact Hp|]. exists extra. split; [exact Hf|]. apply Hm. reflexivity.
Defined.

(** X17: once [Start] has built its command, the record has a flag for
    each of [user-data-dir], [remote-debugging-address] and
    [remote-debugging-port]: the caller's value when the caller gave one
    (the first one given), the default otherwise; the data directory is
    the one the [user-data-dir] flag names.  A later [Start] on the record
    therefore adds no default. *)
Theorem Start_defaults_defined (env : StartEnv) (c : chromium) (os : OS)
    (r : outcome (Z * option error)) (c' : chromium) (os' : OS) (k : Cmd) :
  cmd c = None ->
  chromium_Start env c os = (r, c', os') ->
  cmd c' = Some k ->
  find_flag "user-data-dir" (flags c') = Some (VString (data c'))
  /\ find_flag "remote-debugging-address" (flags c')
     = Some (match find_flag "remote-debugging-address" (flags c) with
             | Some v => v
             | None => VIP loopback
             end)
  /\ find_flag "remote-debugging-port" (flags c')
     = Some (match find_flag "remote-debugging-port" (flags c) with
             | Some v => v
             | None => VInt 0
             end)
  /\ forall env', injected env' (flags c') = [].
Proof.
  intros Hc Hs Hk.
  destruct (Start_flags env c os r c' os' k Hc Hs Hk) as (Hf & _ & _ & Hd).
  assert (Hu : find_flag "user-data-dir" (flags c') = Some (VString (data c'))).
  { rewrite Hf, Hd, !find_flag_app. unfold injected.
    change (find_flag "user-data-dir" mandatory) with (@None any).
    destruct (find_flag "user-data-dir" (flags c)) as [v|] eqn:Hu.
    - destruct v; try reflexivity.
      all: exfalso; revert Hs Hk; unfold chromium_Start, chromium_Flag;
        rewrite Hc; cbn [flags set_flags]; rewrite find_flag_app, Hu;
        intros Hs Hk; injection Hs as <- <- <-; simpl in Hk; congruence.
    - reflexivity. }
  assert (Ha : find_flag "remote-debugging-address" (flags c')
               = Some (match find_flag "remote-debugging-address" (flags c) with
                       | Some v => v
                       | None => VIP loopback
                       end)).
  { rewrite Hf, !find_flag_app. unfold injected.
    change (find_flag "remote-debugging-address" mandatory) with (@None any).
    destruct (find_flag "remote-debugging-address" (flags c)); [reflexivity|].
    destruct (find_flag "user-data-dir" (flags c)); reflexivity. }
  assert (Hp : find_flag "remote-debugging-port" (flags c')
               = Some (match find_flag "remote-debugging-port" (flags c) with
                       | Some v => v
                       | None => VInt 0
                       end)).
  { rewrite Hf, !find_flag_app. unfold injected.
    change (find_flag "remote-debugging-port" mandatory) with (@None any).
    destruct (find_flag "remote-debugging-port" (flags c)); [reflexivity|].
    destruct (find_flag "user-data-dir" (flags c));
      destruct (find_flag "remote-debugging-address" (flags c)); reflexivity. }
  repeat split; try assumption.
  intros env'. unfold injected. now rewrite Hu, Ha, Hp.
Qed.

Lemma Start_defaults_defined_witness :
  exists r c' os' k,
    cmd ported = None /\ chromium_Start first_env ported os0 = (r, c', os')
    /\ cmd c' = Some k
    /\ find_flag "user-data-dir" (flags c') = Some (VString "/tmp/chromium-1")
    /\ find_flag "remote-debugging-port" (flags c') = Some (VUint16 9222)
    /\ injected second_env (flags c') = [].
Proof.
  do 4 eexists. split; [reflexivity|]. split; [reflexivity|]. split; [reflexivity|].
  destruct (Start_defaults_defined first_env ported os0 _ _ _ _ eq_refl eq_refl eq_refl)
    as (Hu & _ & Hp & Hi).
  split; [exact Hu|]. split; [exact Hp | apply Hi].
Defined.

(** X18: the command gets one argument for each flag of the record, in
    the order of the flags, none left out: a boolean flag with the value
    [false] is passed as an empty argument. *)
Theorem Start_one_argument_per_flag (env : StartEnv) (c : chromium) (os : OS)
    (r : outcome (Z * option error)) (c' : chromium) (os' : OS) (k : Cmd) :
  cmd c = None ->
  chromium_Start env c os = (r, c', os') ->
  cmd c' = Some k ->
  Path k = path c
  /\ Args k = path c :: map Flag_String (flags c')
  /\ length (Args k) = S (length (flags c) + 3 + length (injected env (flags c)))
  /\ (forall key, In (mkFlag key (VBool false)) (flags c) -> In "" (tl (Args k))).
Proof.
  intros Hc Hs Hk.
  destruct (Start_flags env c os r c' os' k Hc Hs Hk) as (Hf & Hp & Ha & _).
  split; [exact Hp|]. split; [exact Ha|]. split.
  - rewrite Ha, Hf. simpl. rewrite length_map, !length_app. simpl. lia.
  - intros key Hin. rewrite Ha, Hf. simpl. rewrite map_app.
    apply in_or_app. left.
    change "" with (Flag_String (mkFlag key (VBool false))). now apply in_map.
Qed.

Lemma Start_one_argument_per_flag_witness :
  exists r c' os' k,
    cmd quiet = None /\ chromium_Start first_env quiet os0 = (r, c', os')
    /\ cmd c' = Some k
    /\ Args k = [ "chrome"; ""; "--headless"; "--disable-gpu"; "--no-sandbox";
                  "--user-data-dir=/tmp/chromium-1";
                  "--remote-debugging-address=127.0.0.1"; "--remote-debugging-port=0" ]
    /\ In "" (tl (Args k)).
Proof.
  do 4 eexists. split; [reflexivity|]. split; [reflexivity|]. split; [reflexivity|].
  destruct (Start_one_argument_per_flag first_env quiet os0 _ _ _ _
              eq_refl eq_refl eq_refl) as (_ & Ha & _ & Hin).
  split; [exact Ha|]. apply (Hin "mute-audio"). now left.
Defined.

(** ** The earlier revision *)

Lemma Legacy_Start_built (env : StartEnv) (c : Legacy.chromium) (os : OS) :
  Legacy.cmd c = None -> snd (TempDir env) = None ->
  forall r c' os', Legacy.chromium_Start env c os = (r, c', os') ->
    Legacy.path c' = Legacy.path c /\ Legacy.addr c' = Legacy.addr c
    /\ Legacy.flags c' = Legacy.flags c
    /\ Legacy.data c' = fst (TempDir env)
    /\ dirs os' = fst (TempDir env) :: dirs os
    /\ exists pr,
         Legacy.cmd c'
         = Some (mkCmd (Legacy.path c)
                   (Legacy.path c ::
                    Legacy.flags c ++
                    legacy_tail (fst (TempDir env)) (Legacy.addr c) (Legacy.port c))
                   pr).
Proof.
  intros Hc Ht r c' os'. unfold Legacy.chromium_Start. rewrite Hc.
  destruct (TempDir env) as [d e]; simpl in Ht; subst e.
  assert (R : forall evs x, Legacy.path (snd (Legacy.race_loop evs x)) = Legacy.path x
            /\ Legacy.addr (snd (Legacy.race_loop evs x)) = Legacy.addr x
            /\ Legacy.flags (snd (Legacy.race_loop evs x)) = Legacy.flags x
            /\ Legacy.data (snd (Legacy.race_loop evs x)) = Legacy.data x
            /\ Legacy.cmd (snd (Legacy.race_loop evs x)) = Legacy.cmd x).
  { induction evs as [|ev evs IH]; intros x; simpl; [repeat split|].
    destruct ev as [name p [f [e|]]| |]; simpl; try (repeat split; fail).
    - destruct (negb (String.eqb name marker)); [apply IH | repeat split].
    - destruct (negb (String.eqb name marker)); [apply IH|].
      destruct (strconv.ParseUint f 16) as [v [e|]]; repeat split. }
  destruct (StderrPipe env); [|destruct (watcher_Add env);
    [|destruct (cmd_Start env) as [pid [e|]]]];
    try (intros H; injection H as <- <- <-; cbn; repeat split; eexists; reflexivity).
  match goal with
  | |- context [Legacy.race_loop (race env) ?x] =>
      destruct (R (race env) x) as (R1 & R2 & R3 & R4 & R5);
      destruct (Legacy.race_loop (race env) x) as [r0 c0]
  end.
  intros H; injection H as <- <- <-. cbn in R1, R2, R3, R4, R5 |- *.
  rewrite R1, R2, R3, R4, R5. repeat split. eexists. reflexivity.
Qed.

(** X19: the earlier revision never touches the caller's flags: whenever
    its [Start] gets a temporary directory, that fresh directory is the
    data directory, and the command gets the caller's flags followed by
    [--headless], [--disable-gpu], [--no-sandbox] and the data directory,
    address and port of the record, while the record's flags stay as the
    caller gave them. *)
Theorem Legacy_Start_arguments (env : StartEnv) (c : Legacy.chromium) (os : OS)
    (r : outcome (option error)) (c' : Legacy.chromium) (os' : OS) :
  Legacy.cmd c = None -> snd (TempDir env) = None ->
  Legacy.chromium_Start env c os = (r, c', os') ->
  Legacy.flags c' = Legacy.flags c
  /\ Legacy.data c' = fst (TempDir env)
  /\ In (fst (TempDir env)) (dirs os')
  /\ exists k, Legacy.cmd c' = Some k
       /\ tl (Args k)
          = (Legacy.flags c ++
             legacy_tail (fst (TempDir env)) (Legacy.addr c) (Legacy.port c))%list.
Proof.
  intros Hc Ht Hs.
  destruct (Legacy_Start_built env c os Hc Ht _ _ _ Hs) as (_ & _ & Hf & Hd & Ho & pr & Hk).
  split; [exact Hf|]. split; [exact Hd|]. split; [rewrite Ho; now left|].
  eexists. split; [exact Hk | reflexivity].
Qed.

Lemma Legacy_Start_arguments_witness :
  Legacy.cmd legacy_fresh = None /\ snd (TempDir first_env) = None
  /\ exists r c' os',
       Legacy.chromium_Start first_env legacy_fresh os0 = (r, c', os')
       /\ Legacy.flags c' = []
       /\ exists k, Legacy.cmd c' = Some k
            /\ tl (Args k)
               = [ "--headless"; "--disable-gpu"; "--no-sandbox";
                   "--user-data-dir=/tmp/chromium-1";
                   "--remote-debugging-address=127.0.0.1";
                   "--remote-debugging-port=0" ].
Proof.
  split; [reflexivity|]. split; [reflexivity|]. do 3 eexists. split; [reflexivity|].
  destruct (Legacy_Start_arguments first_env legacy_fresh os0 _ _ _
              eq_refl eq_refl eq_refl) as (Hf & _ & _ & k & Hk & Ha).
  split; [exact Hf|]. exists k. split; [exact Hk | exact Ha].
Defined.

Lemma Legacy_Start_success (env : StartEnv) (c : Legacy.chromium) (os : OS)
    (pre post : list Select) (p file : string) (port : Z) :
  legacy_setup_ok env c -> Forall ignored pre ->
  race env = (pre ++ Event marker p (file, None) :: post)%list ->
  strconv.ParseUint file 16 = (port, None) ->
  exists c' os',
    Legacy.chromium_Start env c os = (Ret None, c', os')
    /\ Legacy.port c' = port
    /\ Legacy.cmd c' <> None
    /\ running os' = fst (cmd_Start env) :: running os
    /\ exists k, Legacy.cmd c' = Some k /\ Process k = Some (fst (cmd_Start env)).
Proof.
  intros (Hc & Hd & Hp & Hw & Hs) Hign Hrace Hparse.
  pose proof (ParseUint_accepts _ _ Hparse) as (_ & _ & Hrange).
  unfold Legacy.chromium_Start. rewrite Hc, Hp, Hw.
  destruct (TempDir env) as [d e]; simpl in Hd; subst e.
  destruct (cmd_Start env) as [pid e]; simpl in Hs; subst e.
  rewrite Hrace, (Legacy_race_loop_skip _ _ _ Hign). simpl. rewrite Hparse.
  rewrite Z.mod_small by (change (2 ^ 16) with 65536; lia).
  do 2 eexists. split; [reflexivity|]. simpl. repeat split; try discriminate.
  eexists. split; reflexivity.
Qed.

(** X20: in the earlier revision the port read from the marker file
    replaces the port the record was built with, and [Stop] does not
    reset it.  So [Port] reports it after [Stop] as well (unless it is 0,
    which [Port] takes for unassigned), and the next [Start] asks the
    browser for that very port instead of the one the caller had given. *)
Theorem Legacy_port_survives_Stop (env env' : StartEnv) (c : Legacy.chromium) (os : OS)
    (pre post : list Select) (p file : string) (port : Z) (kill : option error) :
  legacy_setup_ok env c -> Forall ignored pre ->
  race env = (pre ++ Event marker p (file, None) :: post)%list ->
  strconv.ParseUint file 16 = (port, None) ->
  snd (TempDir env') = None ->
  exists c1 os1 r2 c2 os2,
    Legacy.chromium_Start env c os = (Ret None, c1, os1)
    /\ Legacy.chromium_Stop kill c1 os1 = (r2, c2, os2)
    /\ Legacy.port c2 = port
    /\ Legacy.chromium_Port c2
       = (if port =? 0 then (0, Some ErrNoPortAssigned) else (port, None))
    /\ forall r3 c3 os3, Legacy.chromium_Start env' c2 os2 = (r3, c3, os3) ->
         exists k, Legacy.cmd c3 = Some k
           /\ In ("--remote-debugging-port=" ++ strconv.Itoa port) (Args k)
           /\ Legacy.data c3 = fst (TempDir env').
Proof.
  intros Hok Hign Hrace Hparse Ht.
  destruct (Legacy_Start_success env c os pre post p file port Hok Hign Hrace Hparse)
    as (c1 & os1 & Hs & Hport & _ & _ & k & Hk & Hpr).
  exists c1, os1.
  assert (Hstop : exists r2 os2,
            Legacy.chromium_Stop kill c1 os1
            = (r2, Legacy.mkChromium (Legacy.path c1) (Legacy.addr c1) (Legacy.port c1)
                     "" None (Legacy.flags c1), os2)).
  { unfold Legacy.chromium_Stop, Legacy.chromium_Cleanup. rewrite Hk, Hpr.
    destruct kill; do 2 eexists; reflexivity. }
  destruct Hstop as (r2 & os2 & Hstop).
  exists r2, (Legacy.mkChromium (Legacy.path c1) (Legacy.addr c1) (Legacy.port c1)
                "" None (Legacy.flags c1)), os2.
  split; [exact Hs|]. split; [exact Hstop|].
  cbn [Legacy.port]. split; [exact Hport|]. split.
  - unfold Legacy.chromium_Port. cbn [Legacy.port]. rewrite Hport. reflexivity.
  - intros r3 c3 os3 H3.
    apply Legacy_Start_built in H3 as (_ & _ & _ & Hd & _ & pr & Hk3);
      [|reflexivity | exact Ht].
    eexists. split; [exact Hk3|]. split; [|exact Hd].
    cbn [Args Legacy.port Legacy.flags Legacy.addr Legacy.path]. rewrite Hport.
    right. apply in_or_app. right. unfold legacy_tail. simpl. tauto.
Qed.

Lemma Legacy_port_survives_Stop_witness :
  (legacy_setup_ok first_env legacy_fresh
   /\ Forall ignored [other_event "/tmp/chromium-1"]
   /\ strconv.ParseUint "9222" 16 = (9222, None) /\ snd (TempDir second_env) = None)
  /\ exists c1 os1 r2 c2 os2,
       Legacy.chromium_Start first_env legacy_fresh os0 = (Ret None, c1, os1)
       /\ Legacy.chromium_Stop None c1 os1 = (r2, c2, os2)
       /\ Legacy.chromium_Port legacy_fresh = (0, Some ErrNoPortAssigned)
       /\ Legacy.chromium_Port c2 = (9222, None).
Proof.
  assert (H1 : legacy_setup_ok first_env legacy_fresh) by (repeat split).
  assert (H2 : Forall ignored [other_event "/tmp/chromium-1"])
    by (constructor; [reflexivity | constructor]).
  split; [repeat split; assumption|].
  destruct (Legacy_port_survives_Stop first_env second_env legacy_fresh os0
              [other_event "/tmp/chromium-1"] []
              "/tmp/chromium-1/DevToolsActivePort" "9222" 9222 None
              H1 H2 eq_refl eq_refl eq_refl)
    as (c1 & os1 & r2 & c2 & os2 & Hs & Hstop & _ & Hport & _).
  exists c1, os1, r2, c2, os2. repeat split; assumption.
Defined.

(** X21: in the earlier revision [Data] reports [ErrProcessNotRunning]
    before [Start] and after [Stop]; in between it reports the temporary
    directory, and it does so from the moment the command is built, also
    when [Start] then returns an error. *)
Theorem Legacy_Data_lifecycle (env : StartEnv) (c : Legacy.chromium) (os : OS)
    (r : outcome (option error)) (c' : Legacy.chromium) (os' : OS) :
  Legacy.cmd c = None -> snd (TempDir env) = None ->
  Legacy.chromium_Start env c os = (r, c', os') ->
  Legacy.chromium_Data c = ("", Some ErrProcessNotRunning)
  /\ Legacy.chromium_Data c' = (fst (TempDir env), None)
  /\ forall kill,
       Legacy.chromium_Data (snd (fst (Legacy.chromium_Stop kill c' os')))
       = ("", Some ErrProcessNotRunning).
Proof.
  intros Hc Ht Hs.
  destruct (Legacy_Start_built env c os Hc Ht _ _ _ Hs) as (_ & _ & _ & Hd & _ & pr & Hk).
  unfold Legacy.chromium_Data. rewrite Hc, Hk, Hd.
  split; [reflexivity|]. split; [reflexivity|].
  intros kill. unfold Legacy.chromium_Stop, Legacy.chromium_Cleanup. rewrite Hk.
  cbn [Process]. destruct pr as [pid|]; [destruct kill|]; reflexivity.
Qed.

Lemma Legacy_Data_lifecycle_witness :
  Legacy.cmd legacy_fresh = None /\ snd (TempDir watch_fails) = None
  /\ exists c' os',
       Legacy.chromium_Start watch_fails legacy_fresh os0
       = (Ret (Some (OSError "watcher: permission denied")), c', os')
       /\ Legacy.chromium_Data c' = ("/tmp/chromium-1", None)
       /\ Legacy.chromium_Data (snd (fst (Legacy.chromium_Stop None c' os')))
          = ("", Some ErrProcessNotRunning).
Proof.
  split; [reflexivity|]. split; [reflexivity|]. do 2 eexists. split; [reflexivity|].
  destruct (Legacy_Data_lifecycle watch_fails legacy_fresh os0 _ _ _
              eq_refl eq_refl eq_refl) as (_ & Hd & Hs).
  split; [exact Hd | apply Hs].
Defined.




(** ** The flag constructors *)

(** X23: with the flags [Data], [Address] and [Port] of flag.go in front
    of its other flags, [Start] finds all three keys it looks for: it adds
    no default, creates no temporary directory, uses the given directory,
    and the command gets exactly the caller's flags followed by the three
    mandatory ones. *)
Theorem Start_with_constructors (env : StartEnv) (bin d : string) (ip : net.IP)
    (p : Z) (fs : list Flag) (os : OS) :
  exists r c' os' pr,
    chromium_Start env (New bin (Data d :: Address ip :: Port p :: fs)) os = (r, c', os')
    /\ data c' = d /\ dirs os' = dirs os
    /\ cmd c'
       = Some (mkCmd bin
                 (bin :: ("--user-data-dir=" ++ d)
                      :: ("--remote-debugging-address=" ++ net.IP_String ip)
                      :: ("--remote-debugging-port=" ++ strconv.Itoa p)
                      :: map Flag_String fs
                      ++ ["--headless"; "--disable-gpu"; "--no-sandbox"])
                 pr).
Proof.
  destruct (chromium_Start env (New bin (Data d :: Address ip :: Port p :: fs)) os)
    as [[r c'] os'] eqn:Hs.
  exists r, c', os'.
  rewrite (Start_supplied env (New bin (Data d :: Address ip :: Port p :: fs)) os d)
    in Hs by reflexivity.
  pose proof (launch_os _ _ _ _ _ _ Hs) as Hdirs.
  apply launch_args in Hs as (_ & Hd & _ & pr & Hk).
  exists pr. rewrite Hd, Hk. split; [reflexivity|]. split; [reflexivity|].
  split; [exact Hdirs|].
  unfold defaults, chromium_Flag. cbn. rewrite map_app. reflexivity.
Qed.

Lemma string_app_nil_r (s : string) : s ++ "" = s.
Proof. induction s as [|x s IH]; simpl; [reflexivity | now rewrite IH]. Qed.

(** X24: a flag renders as the empty string exactly when its value is the
    boolean [false]; every other flag renders as a text that begins with
    [--] and the key. *)
Theorem Flag_String_empty (flag : Flag) :
  (Flag_String flag = "" <-> Value flag = VBool false)
  /\ (Value flag <> VBool false ->
      exists rest, Flag_String flag = "--" ++ Key flag ++ rest).
Proof.
  destruct flag as [k v]. unfold Flag_String. cbn [Key Value]. split.
  - destruct v as [[|]| | | | | |]; simpl; split; intros H;
      try discriminate; reflexivity.
  - intros H. destruct v as [[|]| | | | | |];
      try (eexists; reflexivity).
    + exists "". now rewrite string_app_nil_r.
    + contradiction.
Qed.

Lemma Flag_String_empty_witness :
  Value (Data "") <> VBool false
  /\ exists rest, Flag_String (Data "") = "--" ++ Key (Data "") ++ rest.
Proof.
  assert (H : Value (Data "") <> VBool false) by discriminate.
  split; [exact H|]. exact (proj2 (Flag_String_empty (Data "")) H).
Defined.
